(** * SpendingAPI: the request handlers over the Prisma data layer

    A shallow embedding of the Express handlers of the repository
    (the user, group and spending controllers) together with the
    relational store declared in [schema.prisma].  Handlers are written
    in a state-and-exception monad over the store, so that the effects
    of a query survive a later [throw], exactly as the rows written by
    an awaited Prisma call survive a later rejection. *)

From Stdlib Require Import ZArith QArith Ascii String List.
From stdpp Require Import base option list sorting gmap fin_maps strings.

Set Warnings "-register-all".
Local Open Scope Z_scope.
Local Open Scope string_scope.

(** ** JavaScript values *)

(** Request fields are the scalar JSON values, or absent ([Undefined]).
    Numbers are the exact values of the doubles the JSON parser yields. *)
Inductive scalar :=
  | Undefined
  | Null
  | Bool (b : bool)
  | Num (q : Q)
  | Str (s : string).

(** Values placed in a response body. *)
Inductive value :=
  | Lit (x : scalar)
  | Date (t : Z)
  | Arr (items : list value)
  | Obj (fields : list (string * value)).

Definition int (z : Z) : value := Lit (Num (inject_Z z)).
Definition text (s : string) : value := Lit (Str s).

(** [req.body]: an object parsed from JSON; a missing key reads as
    [undefined]. *)
Definition object := gmap string scalar.

Definition get (o : gmap string scalar) (k : string) : scalar :=
  default Undefined (o !! k).

Notation "o .[ k ]" := (get o k) (at level 1, format "o .[ k ]").

Definition is_zero (q : Q) : bool := Z.eqb (Qnum q) 0.

(** [!!v] *)
Definition truthy (v : scalar) : bool :=
  match v with
  | Undefined | Null => false
  | Bool b => b
  | Num q => negb (is_zero q)
  | Str s => negb (String.eqb s "")
  end.

(** [o == null] on a variable holding an object or [null]. *)
Definition is_null {A : Type} (r : option A) : bool :=
  match r with
  | None => true
  | Some _ => false
  end.

(** ** The runtime the handlers run on

    Library functions the handlers call and whose results they only pass
    on: the number and date parsers of the JavaScript engine, bcryptjs,
    jsonwebtoken, the signing secret exported by [JWTsecret.js], and the
    message texts of the errors thrown by the libraries. *)

Inductive library_error :=
  | BcryptIllegalArguments
  | PrismaValidationError
  | P2002   (* unique constraint failed *)
  | P2003   (* foreign key constraint failed *)
  | P2025.  (* record required by the operation not found *)

Class Runtime := {
  (** [Number(s)] on a string; [None] is [NaN]. *)
  StringToNumber : string -> option Q;
  (** [parseInt(s)]; [None] is [NaN]. *)
  parseInt : string -> option Z;
  (** the time value of [new Date(s)] on a string; [None] is an invalid date. *)
  Date_parse : string -> option Z;
  (** [bcrypt.hashSync(password, salt)] *)
  hashSync : string -> string -> string;
  (** [bcrypt.compareSync(password, hash)] *)
  compareSync : string -> string -> bool;
  JWTsecret : string;
  (** [jwt.sign({id, email}, secret, {expiresIn}, callback)] at the time
      [now]; [None] is a callback invoked with an error. *)
  jwt_sign : Z -> string -> string -> string -> Z -> option string;
  library_message : library_error -> string;
  (** The order in which the database returns the rows of a table to a
      query without [orderBy], from the ids of the rows: the query does
      not fix it, and each row comes once. *)
  scan_order : list Z -> list Z;
  scan_order_permutes : forall ids, scan_order ids ≡ₚ ids
}.

Inductive error :=
  | Error (message : string)
  | Thrown (e : library_error).

Section Handlers.

Context `{RT : Runtime}.

Definition message (e : error) : string :=
  match e with
  | Error m => m
  | Thrown l => library_message l
  end.

(** [Number(v)]; [None] is [NaN]. *)
Definition ToNumber (v : scalar) : option Q :=
  match v with
  | Undefined => None
  | Null => Some (inject_Z 0)
  | Bool b => Some (inject_Z (if b then 1 else 0))
  | Num q => Some q
  | Str s => StringToNumber s
  end.

Definition unbool (v : scalar) : scalar :=
  match v with
  | Bool b => Num (inject_Z (if b then 1 else 0))
  | _ => v
  end.

(** [x == y] on scalars (IsLooselyEqual). *)
Definition loose_eq (x y : scalar) : bool :=
  match x, y with
  | Bool a, Bool b => Bool.eqb a b
  | _, _ =>
    match unbool x, unbool y with
    | Undefined, Undefined | Undefined, Null
    | Null, Undefined | Null, Null => true
    | Num a, Num b => Qeq_bool a b
    | Str a, Str b => String.eqb a b
    | Num a, Str b =>
      match StringToNumber b with
      | Some n => Qeq_bool a n
      | None => false
      end
    | Str a, Num b =>
      match StringToNumber a with
      | Some n => Qeq_bool n b
      | None => false
      end
    | _, _ => false
    end
  end.

(** [isNaN(s)] on a route parameter. *)
Definition isNaN (s : string) : bool :=
  match StringToNumber s with
  | None => true
  | Some _ => false
  end.

(** The time value of [new Date(v)]; [None] is an invalid date, the one
    whose [getTime()] is [NaN]. *)
Definition new_Date (v : scalar) : option Z :=
  match v with
  | Str s => Date_parse s
  | _ =>
    match ToNumber v with
    | None => None
    | Some q =>
      if Z.gtb (Z.abs (Qnum q)) (8640000000000000 * Zpos (Qden q)) then None
      else Some (Z.quot (Qnum q) (Zpos (Qden q)))
    end
  end.

(** ** The store (schema.prisma) *)

Record User := {
  u_name : string;
  u_email : string;
  u_password : string;
  u_groupId : option Z
}.

Record Spending := {
  sp_name : string;
  sp_day : Z;
  sp_value : Q;
  sp_userId : Z
}.

Record Group := {
  g_name : string;
  g_password : string
}.

(** Each table maps the primary key [id] to the rest of the row; each
    [*_seq] is the last value handed out by the table's
    [autoincrement()] sequence. *)
Record store := {
  users : gmap Z User;
  groups : gmap Z Group;
  spendings : gmap Z Spending;
  user_seq : Z;
  group_seq : Z;
  spending_seq : Z
}.

(** ** Awaited computations

    A computation reads and writes the store and either returns or
    throws; the store reached at the point of the throw is kept. *)
Definition M (A : Type) : Type := store -> store * (error + A).

Definition ret {A} (a : A) : M A := fun s => (s, inr a).
Definition throw {A} (e : error) : M A := fun s => (s, inl e).
Definition bind {A B} (m : M A) (k : A -> M B) : M B :=
  fun s =>
    match m s with
    | (s', inl e) => (s', inl e)
    | (s', inr a) => k a s'
    end.
Definition try_catch {A} (m : M A) (handler : error -> M A) : M A :=
  fun s =>
    match m s with
    | (s', inl e) => handler e s'
    | (s', inr a) => (s', inr a)
    end.

Notation "'let!' x ':=' m 'in' k" := (bind m (fun x => k))
  (at level 10, x pattern, m at level 100, k at level 200).

(** [if (c) throw Error(msg);] *)
Definition throw_if (c : bool) (msg : string) : M unit :=
  if c then throw (Error msg) else ret tt.

(** A Prisma call yields a thenable; the query runs when it is awaited. *)
Inductive PrismaPromise (A : Type) :=
  | Pending (query : M A).
Arguments Pending {A} query.

Definition await {A} (p : PrismaPromise A) : M A :=
  match p with
  | Pending q => q
  end.

(** *** bcryptjs: both entry points reject a password that is not a string *)

Definition bcrypt_hashSync (password : scalar) (salt : string) : M string :=
  match password with
  | Str p => ret (hashSync p salt)
  | _ => throw (Thrown BcryptIllegalArguments)
  end.

Definition bcrypt_compareSync (password : scalar) (hash : string) : M bool :=
  match password with
  | Str p => ret (compareSync p hash)
  | _ => throw (Thrown BcryptIllegalArguments)
  end.

(** ** The Prisma client

    Arguments are validated against the column types of the schema
    before the query is sent; the database then enforces the primary
    keys, the unique indexes and the foreign keys. *)

Definition int32 (z : Z) : bool :=
  Z.leb (-2147483648) z && Z.leb z 2147483647.

(** A number given where the schema has an [Int] is read as its integer
    part, and is refused when that does not fit the column. *)
Definition as_Int (v : scalar) : option Z :=
  match v with
  | Num q =>
    let z := Z.quot (Qnum q) (Zpos (Qden q)) in
    if int32 z then Some z else None
  | _ => None
  end.

Definition validated {A} (a : option A) : M A :=
  match a with
  | Some x => ret x
  | None => throw (Thrown PrismaValidationError)
  end.

(** An [Int] argument taken from the request body. *)
Definition Int (v : scalar) : M Z := validated (as_Int v).

(** An [Int] argument computed by [parseInt]: [NaN] and integers that do
    not fit the column are refused. *)
Definition Int_parsed (n : option Z) : M Z :=
  validated (z ← n; if int32 z then Some z else None).

Definition String_ (v : scalar) : M string :=
  validated (match v with Str s => Some s | _ => None end).

Definition Float (v : scalar) : M Q :=
  validated (match v with Num q => Some q | _ => None end).

(** A [DateTime] argument, as a time value: the dates of the years 1 to
    9999 are accepted, from 0001-01-01T00:00:00.000Z to
    9999-12-31T23:59:59.999Z. *)
Definition DateTime_fits (t : Z) : bool :=
  Z.leb (-62135596800000) t && Z.leb t 253402300799999.

Definition DateTime (t : Z) : M Z :=
  validated (if DateTime_fits t then Some t else None).

(** A lookup by a unique column: a row that satisfies [p]; under the
    unique index there is at most one. *)
Definition first_row {A} (p : Z -> A -> bool) (table : gmap Z A) : option (Z * A) :=
  List.find (fun r => p r.1 r.2) (map_to_list table).

(** The rows of a table, in the order the database returns them. *)
Definition all_rows {A} (table : gmap Z A) : list (Z * A) :=
  omap (fun k => pair k <$> table !! k) (scan_order (map_to_list table).*1).

(** [findMany({where})]: the rows that satisfy [p], in that order. *)
Definition rows {A} (p : Z -> A -> bool) (table : gmap Z A) : list (Z * A) :=
  List.filter (fun r => p r.1 r.2) (all_rows table).

Definition email_is (e : string) (_ : Z) (u : User) : bool := String.eqb (u_email u) e.
Definition name_is (n : string) (_ : Z) (g : Group) : bool := String.eqb (g_name g) n.

Definition set_users (f : gmap Z User -> gmap Z User) (s : store) : store :=
  {| users := f (users s); groups := groups s; spendings := spendings s;
     user_seq := user_seq s; group_seq := group_seq s; spending_seq := spending_seq s |}.

Definition set_groups (f : gmap Z Group -> gmap Z Group) (s : store) : store :=
  {| users := users s; groups := f (groups s); spendings := spendings s;
     user_seq := user_seq s; group_seq := group_seq s; spending_seq := spending_seq s |}.

Definition set_spendings (f : gmap Z Spending -> gmap Z Spending) (s : store) : store :=
  {| users := users s; groups := groups s; spendings := f (spendings s);
     user_seq := user_seq s; group_seq := group_seq s; spending_seq := spending_seq s |}.

Definition next_user_id (s : store) : store :=
  {| users := users s; groups := groups s; spendings := spendings s;
     user_seq := user_seq s + 1; group_seq := group_seq s; spending_seq := spending_seq s |}.

Definition next_group_id (s : store) : store :=
  {| users := users s; groups := groups s; spendings := spendings s;
     user_seq := user_seq s; group_seq := group_seq s + 1; spending_seq := spending_seq s |}.

Definition next_spending_id (s : store) : store :=
  {| users := users s; groups := groups s; spendings := spendings s;
     user_seq := user_seq s; group_seq := group_seq s; spending_seq := spending_seq s + 1 |}.

Definition failed {A} (e : library_error) (s : store) : store * (error + A) :=
  (s, inl (Thrown e)).

(** *** model User *)

(** [prisma.user.findUnique({where: {email}})] *)
Definition prisma_user_findUnique_email (email : scalar)
  : PrismaPromise (option (Z * User)) :=
  Pending (let! e := String_ email in
           fun s => (s, inr (first_row (email_is e) (users s)))).

(** [prisma.user.create({data: {name, email, password}})].  The id is
    drawn from the sequence before the row is checked against the
    indexes, so a refused insert still consumes it. *)
Definition prisma_user_create (name email : scalar) (password : string)
  : PrismaPromise (Z * User) :=
  Pending (let! n := String_ name in
           let! e := String_ email in
           fun s =>
             let s1 := next_user_id s in
             let id := user_seq s1 in
             let row := {| u_name := n; u_email := e; u_password := password;
                           u_groupId := None |} in
             if is_null (users s1 !! id) && is_null (first_row (email_is e) (users s1))
             then (set_users (insert id row) s1, inr (id, row))
             else failed P2002 s1).

(** [prisma.user.update({where: {id}, data: {groupId}})]; [groupId] is an
    [Int] or [null], and an [undefined] one leaves the column as it is. *)
Definition prisma_user_update_groupId (id groupId : scalar)
  : PrismaPromise (Z * User) :=
  Pending (let! i := Int id in
           let! change := match groupId with
                          | Undefined => ret None
                          | Null => ret (Some None)
                          | _ => let! z := Int groupId in ret (Some (Some z))
                          end in
           fun s =>
             match users s !! i with
             | None => failed P2025 s
             | Some u =>
               let g := default (u_groupId u) change in
               let row := {| u_name := u_name u; u_email := u_email u;
                             u_password := u_password u; u_groupId := g |} in
               match g with
               | Some z =>
                 if is_null (groups s !! z) then failed P2003 s
                 else (set_users (insert i row) s, inr (i, row))
               | None => (set_users (insert i row) s, inr (i, row))
               end
             end).

(** *** model Group *)

(** [prisma.group.findUnique({where: {name}})] *)
Definition prisma_group_findUnique_name (name : scalar)
  : PrismaPromise (option (Z * Group)) :=
  Pending (let! n := String_ name in
           fun s => (s, inr (first_row (name_is n) (groups s)))).

(** [prisma.group.findUnique({where: {id}})] *)
Definition prisma_group_findUnique_id (id : scalar)
  : PrismaPromise (option (Z * Group)) :=
  Pending (let! i := Int id in
           fun s => (s, inr (pair i <$> groups s !! i))).

(** [prisma.group.create({data: {name, password}})] *)
Definition prisma_group_create (name : scalar) (password : string)
  : PrismaPromise (Z * Group) :=
  Pending (let! n := String_ name in
           fun s =>
             let s1 := next_group_id s in
             let id := group_seq s1 in
             let row := {| g_name := n; g_password := password |} in
             if is_null (groups s1 !! id) && is_null (first_row (name_is n) (groups s1))
             then (set_groups (insert id row) s1, inr (id, row))
             else failed P2002 s1).

(** The rows returned under
    [select: {id, name, users: {select: {id, name, email, spendings: true}}}]. *)
Definition select_spending (r : Z * Spending) : value :=
  Obj [("id", int r.1); ("name", text (sp_name r.2)); ("day", Date (sp_day r.2));
       ("value", Lit (Num (sp_value r.2))); ("userId", int (sp_userId r.2))].

Definition owned_by (userId : Z) (_ : Z) (sp : Spending) : bool :=
  Z.eqb (sp_userId sp) userId.

Definition select_user (s : store) (r : Z * User) : value :=
  Obj [("id", int r.1); ("name", text (u_name r.2)); ("email", text (u_email r.2));
       ("spendings", Arr (select_spending <$> rows (owned_by r.1) (spendings s)))].

Definition member_of (groupId : Z) (_ : Z) (u : User) : bool :=
  bool_decide (u_groupId u = Some groupId).

Definition select_group (s : store) (r : Z * Group) : value :=
  Obj [("id", int r.1); ("name", text (g_name r.2));
       ("users", Arr (select_user s <$> rows (member_of r.1) (users s)))].

(** [prisma.group.findMany({select})] *)
Definition prisma_group_findMany : PrismaPromise (list value) :=
  Pending (fun s => (s, inr (select_group s <$> all_rows (groups s)))).

(** [prisma.group.findMany({where: {id}, select})] *)
Definition prisma_group_findMany_id (id : option Z) : PrismaPromise (list value) :=
  Pending (let! i := Int_parsed id in
           fun s => (s, inr (select_group s <$> rows (fun k _ => Z.eqb k i) (groups s)))).

(** *** model Spending *)

(** [prisma.spending.findMany({where: {userId}})] *)
Definition prisma_spending_findMany_userId (userId : option Z)
  : PrismaPromise (list (Z * Spending)) :=
  Pending (let! u := Int_parsed userId in
           fun s => (s, inr (rows (owned_by u) (spendings s)))).

(** [prisma.spending.findUnique({where: {id}})] *)
Definition prisma_spending_findUnique_id (id : option Z)
  : PrismaPromise (option (Z * Spending)) :=
  Pending (let! i := Int_parsed id in
           fun s => (s, inr (pair i <$> spendings s !! i))).

(** [prisma.spending.create({data: {name, day, value, userId}})]; [name]
    is a required [String] column, [day] a [DateTime], [userId]
    references [User].  The arguments are checked before the insert is
    sent, so a refused argument consumes no id. *)
Definition prisma_spending_create (name : scalar) (day : Z) (value userId : scalar)
  : PrismaPromise (Z * Spending) :=
  Pending (let! n := String_ name in
           let! d := DateTime day in
           let! v := Float value in
           let! u := Int userId in
           fun s =>
             let s1 := next_spending_id s in
             let id := spending_seq s1 in
             let row := {| sp_name := n; sp_day := d; sp_value := v; sp_userId := u |} in
             if negb (is_null (spendings s1 !! id)) then failed P2002 s1
             else if is_null (users s1 !! u) then failed P2003 s1
             else (set_spendings (insert id row) s1, inr (id, row))).

(** [prisma.spending.update({where: {id}, data: {name, day, value, userId}})];
    an [undefined] [name] leaves the column as it is. *)
Definition prisma_spending_update (id : option Z) (name : scalar) (day : Z)
    (value userId : scalar) : PrismaPromise (Z * Spending) :=
  Pending (let! i := Int_parsed id in
           let! n := match name with
                     | Undefined => ret None
                     | _ => let! x := String_ name in ret (Some x)
                     end in
           let! d := DateTime day in
           let! v := Float value in
           let! u := Int userId in
           fun s =>
             match spendings s !! i with
             | None => failed P2025 s
             | Some old =>
               let row := {| sp_name := default (sp_name old) n; sp_day := d;
                             sp_value := v; sp_userId := u |} in
               if is_null (users s !! u) then failed P2003 s
               else (set_spendings (insert i row) s, inr (i, row))
             end).

(** [prisma.spending.delete({where: {id}})] *)
Definition prisma_spending_delete (id : option Z) : PrismaPromise (Z * Spending) :=
  Pending (let! i := Int_parsed id in
           fun s =>
             match spendings s !! i with
             | None => failed P2025 s
             | Some old => (set_spendings (delete i) s, inr (i, old))
             end).

(** ** Express responses *)

Record response := {
  status : Z;
  body : value
}.

(** [res.statusCode = st; res.send(b)]: a 204 or 304 response is sent
    without its body. *)
Definition send (st : Z) (b : value) : response :=
  {| status := st;
     body := if Z.eqb st 204 || Z.eqb st 304 then text "" else b |}.

(** [res.sendStatus(st)] sends the reason phrase of the status as text;
    the handlers call it with 400 and 500 only. *)
Definition sendStatus (st : Z) : response :=
  send st (text (if Z.eqb st 400 then "Bad Request"
                 else if Z.eqb st 500 then "Internal Server Error"
                 else "")).

(** [catch (error) { res.statusCode = 400; res.send({error: error.message}) }] *)
Definition catch_400 (error : error) : M response :=
  ret (send 400 (Obj [("error", text (message error))])).

(** [!v || v == 0] *)
Definition falsy_or_zero (v : scalar) : bool :=
  negb (truthy v) || loose_eq v (Num (inject_Z 0)).

(** [!v || v == ""] *)
Definition falsy_or_empty (v : scalar) : bool :=
  negb (truthy v) || loose_eq v (Str "").

(** [!n || n == 0] on the result of [parseInt] *)
Definition NaN_or_zero (n : option Z) : bool :=
  match n with
  | None => true
  | Some z => Z.eqb z 0
  end.

(** ** UserController.js *)

(** [POST /user]; [salt] is the salt drawn by [bcrypt.genSaltSync(10)]. *)
Definition register (salt : string) (newUser : object) : M response :=
  try_catch
    (let! _ := throw_if (falsy_or_empty newUser.["name"]) "Nome é obrigatório!" in
     let! _ := throw_if (falsy_or_empty newUser.["email"]) "Email é obrigatório!" in
     let! _ := throw_if (falsy_or_empty newUser.["password"]) "Senha é obrigatória!" in
     (* not awaited: the variable holds the thenable itself *)
     let existUser := Some (prisma_user_findUnique_email newUser.["email"]) in
     if negb (is_null existUser) then
       let! hash := bcrypt_hashSync newUser.["password"] salt in
       let! user := await (prisma_user_create newUser.["name"] newUser.["email"] hash) in
       ret (send 201 (Obj [("message", text "Usuário cadastrado com sucesso!");
                           ("data", Obj [("id", int user.1)])]))
     else
       ret (send 400 (Obj [("error", text "Email já")])))
    catch_400.

(** [POST /login]; [now] is the time at which the token is issued. *)
Definition login (now : Z) (userLogin : object) : M response :=
  try_catch
    (let! _ := throw_if (falsy_or_empty userLogin.["email"]
                         || falsy_or_empty userLogin.["password"])
                        "Email ou senha inválidos" in
     let! user := await (prisma_user_findUnique_email userLogin.["email"]) in
     match user with
     | Some user =>
       let! isCorrectPassword :=
         bcrypt_compareSync userLogin.["password"] (u_password user.2) in
       let! _ := throw_if (negb isCorrectPassword) "Email ou senha incorretos!" in
       match jwt_sign user.1 (u_email user.2) JWTsecret "15d" now with
       | None => ret (sendStatus 500)
       | Some token =>
         ret (send 200 (Obj [("message", text "Login efetuado com sucesso!");
                             ("data", Obj [("userId", int user.1);
                                           ("token", text token)])]))
       end
     | None =>
       ret (send 404 (Obj [("error", text "Usuário não encontrado!")]))
     end)
    catch_400.

(** ** GroupController.js (the handlers run behind the [auth] middleware) *)

(** [GET /group] *)
Definition listGroups : M response :=
  try_catch
    (let! groups := await prisma_group_findMany in
     ret (send 200 (Obj [("message", text "Grupos obtido com sucesso!");
                         ("data", Arr groups)])))
    catch_400.

(** [GET /group/:id] *)
Definition getGroup (id : string) : M response :=
  try_catch
    (if negb (isNaN id) then
       let groupID := parseInt id in
       let! group := await (prisma_group_findMany_id groupID) in
       ret (send 200 (Obj [("message", text "Grupo obtido com sucesso!");
                           ("data", Arr group)]))
     else
       ret (sendStatus 400))
    catch_400.

(** [POST /group] *)
Definition createGroup (salt : string) (newGroup : object) : M response :=
  try_catch
    (let! _ := throw_if (falsy_or_zero newGroup.["userId"])
                        "É necessário um usuário para criar o grupo!" in
     let! _ := throw_if (falsy_or_empty newGroup.["name"]) "Nome é obrigatório!" in
     let! _ := throw_if (falsy_or_empty newGroup.["password"]) "Senha é obrigatória" in
     let! existGroup := await (prisma_group_findUnique_name newGroup.["name"]) in
     if is_null existGroup then
       let! hash := bcrypt_hashSync newGroup.["password"] salt in
       let! group := await (prisma_group_create newGroup.["name"] hash) in
       let! user := await (prisma_user_update_groupId
                             (Num (inject_Z group.1)) (Num (inject_Z group.1))) in
       ret (send 201 (Obj [("message", text "Grupo cadastrado com sucesso!");
                           ("data", Obj [("id", int group.1)])]))
     else
       throw (Error "Já existe um grupo com esse nome!"))
    catch_400.

(** [POST /group/join] *)
Definition joinGroup (groupJoin : object) : M response :=
  try_catch
    (let! _ := throw_if (falsy_or_zero groupJoin.["userId"])
                        "É necessário um usuário para criar o grupo!" in
     let! _ := throw_if (falsy_or_zero groupJoin.["groupId"])
                        "É necessário um usuário para criar o grupo!" in
     let! _ := throw_if (falsy_or_empty groupJoin.["password"]) "Senha é obrigatória!" in
     let! group := await (prisma_group_findUnique_id groupJoin.["groupId"]) in
     match group with
     | Some group =>
       let! isCorrectPassword :=
         bcrypt_compareSync groupJoin.["password"] (g_password group.2) in
       if isCorrectPassword then
         let! user := await (prisma_user_update_groupId
                               groupJoin.["userId"] groupJoin.["groupId"]) in
         ret (send 201 (Obj [("message", text "Usuário adicionado com sucesso!");
                             ("data", Obj [("id", int user.1)])]))
       else
         throw (Error "Senha incorreta!")
     | None =>
       throw (Error "Já existe um grupo com esse nome!")
     end)
    catch_400.

(** [POST /group/leave] *)
Definition leaveGroup (groupJoin : object) : M response :=
  try_catch
    (let! _ := throw_if (falsy_or_zero groupJoin.["userId"])
                        "É necessário um usuário para criar o grupo!" in
     let! _ := throw_if (falsy_or_zero groupJoin.["groupId"])
                        "É necessário um usuário para criar o grupo!" in
     let! group := await (prisma_group_findUnique_id groupJoin.["groupId"]) in
     if negb (is_null group) then
       let! user := await (prisma_user_update_groupId groupJoin.["userId"] Null) in
       ret (send 201 (Obj [("message", text "Usuário removido com sucesso!");
                           ("data", Obj [("id", int user.1)])]))
     else
       ret (send 400 (Obj [("error", text "Grupo não encontrado!")])))
    catch_400.

(** ** SpendingController.js *)

(** [GET /spending/:userId]; the handler has no [try], so a rejected
    query leaves the request without a response. *)
Definition listByUser (userId : string) : M response :=
  if negb (isNaN userId) then
    let userId := parseInt userId in
    let! spendings := await (prisma_spending_findMany_userId userId) in
    ret (send 200 (Obj [("message", text "Lista de gastos obtidas com sucesso!");
                        ("data", Arr (select_spending <$> spendings))]))
  else
    ret (sendStatus 400).

(** [POST /spending] *)
Definition create (newSpending : object) : M response :=
  try_catch
    (let! _ := throw_if (falsy_or_zero newSpending.["userId"])
                        "Um gasto deve estar relacionado a um usuário!" in
     let! _ := throw_if (falsy_or_empty newSpending.["day"]) "Dia é obrigatório!" in
     let! _ := throw_if (falsy_or_zero newSpending.["value"]) "Valor é obrigatório!" in
     match new_Date newSpending.["day"] with
     | None => throw (Error "Formato de data inválido!")
     | Some date =>
       let! spending := await (prisma_spending_create newSpending.["name"] date
                                 newSpending.["value"] newSpending.["userId"]) in
       ret (send 201 (Obj [("message", text "Gasto cadastrado com sucesso!");
                           ("data", Obj [("id", int spending.1)])]))
     end)
    catch_400.

(** [PUT /spending/:id].  In the branch of a non-numeric id the response
    is complete after [res.sendStatus(400)]; the [res.send] that follows
    cannot change it. *)
Definition update (id : string) (updateSpending : object) : M response :=
  try_catch
    (if negb (isNaN id) then
       let spendingID := parseInt id in
       let! _ := throw_if (NaN_or_zero spendingID) "ID de gasto inválido!" in
       let! _ := throw_if (falsy_or_zero updateSpending.["userId"])
                          "Um gasto deve estar relacionado a um usuário!" in
       let! _ := throw_if (falsy_or_empty updateSpending.["day"]) "Dia é obrigatório!" in
       let! _ := throw_if (falsy_or_zero updateSpending.["value"]) "Valor é obrigatório!" in
       match new_Date updateSpending.["day"] with
       | None => throw (Error "Formato de data inválido!")
       | Some date =>
         let! spendingExist := await (prisma_spending_findUnique_id spendingID) in
         if is_null spendingExist then
           ret (send 404 (Obj [("error", text "Gasto não encontrado!")]))
         else
           let! spending := await (prisma_spending_update spendingID
                                     updateSpending.["name"] date
                                     updateSpending.["value"]
                                     updateSpending.["userId"]) in
           ret (send 204 (Obj [("message", text "Gasto atualizado com sucesso!");
                               ("data", Obj [("id", int spending.1)])]))
       end
     else
       ret (sendStatus 400))
    catch_400.

(** [DELETE /spending/:id] (registered without the [auth] middleware) *)
Definition delete_ (id : string) : M response :=
  try_catch
    (if negb (isNaN id) then
       let spendingID := parseInt id in
       let! _ := throw_if (NaN_or_zero spendingID) "ID de gasto inválido!" in
       let! spendingExist := await (prisma_spending_findUnique_id spendingID) in
       if is_null spendingExist then
         ret (send 404 (Obj [("error", text "Gasto não encontrado!")]))
       else
         let! spending := await (prisma_spending_delete spendingID) in
         ret (send 204 (Obj [("message", text "Gasto atualizado com sucesso!");
                             ("data", Obj [("id", int spending.1)])]))
     else
       ret (sendStatus 400))
    catch_400.

(** ** The routes (index.js mounts the three routers on the same path) *)

Inductive request :=
  | POST_user (salt : string) (body : object)
  | POST_login (now : Z) (body : object)
  | GET_group
  | GET_group_id (id : string)
  | POST_group (salt : string) (body : object)
  | POST_group_join (body : object)
  | POST_group_leave (body : object)
  | GET_spending (userId : string)
  | POST_spending (body : object)
  | PUT_spending (id : string) (body : object)
  | DELETE_spending (id : string).

Definition handle (req : request) : M response :=
  match req with
  | POST_user salt body => register salt body
  | POST_login now body => login now body
  | GET_group => listGroups
  | GET_group_id id => getGroup id
  | POST_group salt body => createGroup salt body
  | POST_group_join body => joinGroup body
  | POST_group_leave body => leaveGroup body
  | GET_spending userId => listByUser userId
  | POST_spending body => create body
  | PUT_spending id body => update id body
  | DELETE_spending id => delete_ id
  end.

End Handlers.

(** ** A concrete runtime

    A small instance of the runtime on which the handlers can be
    evaluated: the number parsers read decimal numerals (and [Number("")]
    is 0), the date parser knows one ISO 8601 date, the hash keeps its
    salt in front as bcrypt does, the token spells out its payload, and
    the database returns rows by ascending id. *)

Definition digit (c : ascii) : option Z :=
  let n := Z.of_nat (nat_of_ascii c) in
  if Z.leb 48 n && Z.leb n 57 then Some (n - 48) else None.

Fixpoint decimal (acc : Z) (s : string) : option Z :=
  match s with
  | EmptyString => Some acc
  | String c rest =>
    match digit c with
    | Some d => decimal (10 * acc + d) rest
    | None => None
    end
  end.

Definition numeral (s : string) : option Z :=
  match s with
  | EmptyString => None
  | _ => decimal 0 s
  end.

Definition demo_hash (password salt : string) : string :=
  salt ++ "$" ++ password.

Definition demo_compare (password hash : string) : bool :=
  match index 0 "$" hash with
  | Some n => String.eqb (substring (S n) (String.length hash - S n) hash) password
  | None => false
  end.

Definition demo : Runtime := {|
  StringToNumber := fun s =>
    if String.eqb s "" then Some (inject_Z 0) else inject_Z <$> numeral s;
  parseInt := numeral;
  Date_parse := fun s =>
    if String.eqb s "2024-09-03T12:34:56Z" then Some 1725366896000 else None;
  hashSync := demo_hash;
  compareSync := demo_compare;
  JWTsecret := "secret";
  jwt_sign := fun id email secret expiresIn now =>
    Some (email ++ "." ++ expiresIn ++ "." ++ secret);
  library_message := fun e =>
    match e with
    | BcryptIllegalArguments => "Illegal arguments"
    | PrismaValidationError => "Invalid invocation"
    | P2002 => "Unique constraint failed"
    | P2003 => "Foreign key constraint failed"
    | P2025 => "Record to update not found"
    end;
  scan_order := merge_sort Z.le;
  scan_order_permutes := merge_sort_Permutation Z.le
|}.

Definition empty_store : store :=
  {| users := ∅; groups := ∅; spendings := ∅;
     user_seq := 0; group_seq := 0; spending_seq := 0 |}.

(** The store a computation leaves behind. *)
Definition run {A} (m : M A) (s : store) : store := (m s).1.

Definition ana : object :=
  {[ "name" := Str "Ana"; "email" := Str "ana@example.com"; "password" := Str "senha123" ]}.
Definition bia : object :=
  {[ "name" := Str "Bia"; "email" := Str "bia@example.com"; "password" := Str "abc" ]}.

(** Sample states, reached from the empty database by the handlers
    themselves: Ana and Bia register (ids 1 and 2), Ana creates the
    group "Casa" (id 1), Bia creates the group "Trabalho" (id 2). *)
Definition two_users : store :=
  run (@register demo "s2" bia) (run (@register demo "s1" ana) empty_store).

Definition casa (userId : Z) : object :=
  {[ "userId" := Num (inject_Z userId); "name" := Str "Casa"; "password" := Str "pw" ]}.
Definition trabalho (userId : Z) : object :=
  {[ "userId" := Num (inject_Z userId); "name" := Str "Trabalho"; "password" := Str "1234" ]}.

Definition one_group : store := run (@createGroup demo "g1" (casa 1)) two_users.
Definition two_groups : store := run (@createGroup demo "g2" (trabalho 2)) one_group.

Definition membership (userId groupId : Z) : object :=
  {[ "userId" := Num (inject_Z userId); "groupId" := Num (inject_Z groupId) ]}.

Definition credentials (email password : string) : object :=
  {[ "email" := Str email; "password" := Str password ]}.

Definition caio : object :=
  {[ "name" := Str "Caio"; "email" := Str "caio@example.com"; "password" := Str "xyz" ]}.

Definition rua (userId : Z) : object :=
  {[ "userId" := Num (inject_Z userId); "name" := Str "Rua"; "password" := Str "pw" ]}.

Definition joining (userId groupId : Z) (password : string) : object :=
  {[ "userId" := Num (inject_Z userId); "groupId" := Num (inject_Z groupId);
     "password" := Str password ]}.

Definition lunch : object :=
  {[ "userId" := Num (inject_Z 2); "day" := Str "2024-09-03T12:34:56Z";
     "value" := Num (Qmake 5 2); "name" := Str "almoço" ]}.

Definition unnamed : object :=
  {[ "userId" := Num (inject_Z 2); "day" := Str "2024-09-03T12:34:56Z";
     "value" := Num (Qmake 5 2) ]}.

Definition ana_row : User :=
  {| u_name := "Ana"; u_email := "ana@example.com"; u_password := "s1$senha123";
     u_groupId := None |}.
Definition bia_row : User :=
  {| u_name := "Bia"; u_email := "bia@example.com"; u_password := "s2$abc";
     u_groupId := None |}.

(** ** Notions used in the statements *)

(** The unique index on [User.email]. *)
Definition emails_unique (s : store) : Prop :=
  forall i j u v,
    users s !! i = Some u -> users s !! j = Some v -> u_email u = u_email v -> i = j.

(** A key occurs somewhere in a value. *)
Fixpoint mentions (k : string) (v : value) : bool :=
  match v with
  | Lit _ | Date _ => false
  | Arr items => existsb (mentions k) items
  | Obj fields =>
    existsb (fun f => match f with (k', v') => String.eqb k' k || mentions k v' end) fields
  end.

(** Two stores that differ at most in the password hashes they hold. *)
Definition without_user_password (u : User) : User :=
  {| u_name := u_name u; u_email := u_email u; u_password := "";
     u_groupId := u_groupId u |}.

Definition without_group_password (g : Group) : Group :=
  {| g_name := g_name g; g_password := "" |}.

Definition same_but_passwords (s1 s2 : store) : Prop :=
  without_user_password <$> users s1 = without_user_password <$> users s2
  /\ without_group_password <$> groups s1 = without_group_password <$> groups s2
  /\ spendings s1 = spendings s2
  /\ user_seq s1 = user_seq s2
  /\ group_seq s1 = group_seq s2
  /\ spending_seq s1 = spending_seq s2.

(** A computation that keeps an invariant of the store, whether it
    returns or throws. *)
Definition preserves {A} (I : store -> Prop) (m : M A) : Prop :=
  forall s s' r, I s -> m s = (s', r) -> I s'.

(** A handler none of whose responses carries a [password] key. *)
Definition discreet (m : M response) : Prop :=
  forall s s' r, m s = (s', inr r) -> mentions "password" (body r) = false.

(** The sample states again, with other salts drawn at each hashing. *)
Definition two_groups_resalted : store :=
  run (@createGroup demo "k2" (trabalho 2))
    (run (@createGroup demo "k1" (casa 1))
       (run (@register demo "r2" bia) (run (@register demo "r1" ana) empty_store))).

(** Requests on spendings used in the examples. *)
Definition jantar : object :=
  {[ "userId" := Num (inject_Z 1); "day" := Str "2024-09-03T12:34:56Z";
     "value" := Num (Qmake 40 1); "name" := Str "jantar" ]}.

Definition sem_nome : object :=
  {[ "userId" := Num (inject_Z 1); "day" := Str "2024-09-03T12:34:56Z";
     "value" := Num (Qmake 40 1) ]}.


(** Bia has recorded one spending (id 1). *)
Definition one_spending : store := run (@create demo lunch) two_users.


(** The unique index on [Group.name]. *)
Definition names_unique (s : store) : Prop :=
  forall i j g h,
    groups s !! i = Some g -> groups s !! j = Some h -> g_name g = g_name h -> i = j.

(** The two foreign keys: [User.groupId] names a group, [Spending.userId]
    names a user. *)
Definition references_hold (s : store) : Prop :=
  (forall i u g, users s !! i = Some u -> u_groupId u = Some g -> is_Some (groups s !! g))
  /\ (forall i sp, spendings s !! i = Some sp -> is_Some (users s !! sp_userId sp)).

(** Every id in a table has been handed out by the table's sequence. *)
Definition ids_issued (s : store) : Prop :=
  (0 <= user_seq s /\ forall i, is_Some (users s !! i) -> 0 < i <= user_seq s)
  /\ (0 <= group_seq s /\ forall i, is_Some (groups s !! i) -> 0 < i <= group_seq s)
  /\ (0 <= spending_seq s
      /\ forall i, is_Some (spendings s !! i) -> 0 < i <= spending_seq s).


(** The status codes a route can answer with. *)
Definition statuses (req : request) : list Z :=
  match req with
  | POST_user _ _ => [201; 400]
  | POST_login _ _ => [200; 400; 404; 500]
  | GET_group | GET_group_id _ => [200; 400]
  | POST_group _ _ | POST_group_join _ | POST_group_leave _ => [201; 400]
  | GET_spending _ => [200; 400]
  | POST_spending _ => [201; 400]
  | PUT_spending _ _ | DELETE_spending _ => [204; 400; 404]
  end.

(** A handler all of whose responses satisfy [P]. *)
Definition answers (P : response -> Prop) (m : M response) : Prop :=
  forall s s' r, m s = (s', inr r) -> P r.

(** [l] holds the rows of [table] that satisfy [P], each once, in some
    order. *)
Definition lists_rows {A} (P : Z -> A -> Prop) (table : gmap Z A)
    (l : list (Z * A)) : Prop :=
  NoDup l.*1 /\ forall k a, (k, a) ∈ l <-> table !! k = Some a /\ P k a.

(** [v] shows the user [r] with id, name, email and, as [spendings], the
    spendings of that user in [s]. *)
Definition shown_user (s : store) (r : Z * User) (v : value) : Prop :=
  exists sps,
    lists_rows (fun _ sp => sp_userId sp = r.1) (spendings s) sps
    /\ v = Obj [("id", int r.1); ("name", text (u_name r.2));
                ("email", text (u_email r.2));
                ("spendings", Arr (select_spending <$> sps))].

(** [v] shows the group [r] with id, name and, as [users], the users of
    [s] whose [groupId] is the id of the group. *)
Definition shown_group (s : store) (r : Z * Group) (v : value) : Prop :=
  exists us members,
    lists_rows (fun _ u => u_groupId u = Some r.1) (users s) us
    /\ Forall2 (shown_user s) us members
    /\ v = Obj [("id", int r.1); ("name", text (g_name r.2));
                ("users", Arr members)].

(** Ana asks to join the group "Trabalho" (id 2). *)
Definition ana_joins : object := joining 1 2 "1234".


Definition sem_usuario : object :=
  {[ "day" := Str "2024-09-03T12:34:56Z"; "value" := Num (Qmake 40 1) ]}.

Definition sem_dia : object :=
  {[ "userId" := Num (inject_Z 1); "value" := Num (Qmake 40 1) ]}.

Definition valor_zero : object :=
  {[ "userId" := Num (inject_Z 1); "day" := Str "2024-09-03T12:34:56Z";
     "value" := Num (Qmake 0 1) ]}.

Definition dia_ruim : object :=
  {[ "userId" := Num (inject_Z 1); "day" := Str "ontem";
     "value" := Num (Qmake 40 1) ]}.


(** ** Properties of the data layer *)

Section DataLayer.

Context `{RT : Runtime} {A : Type}.
Implicit Types (p : Z -> A -> bool) (table : gmap Z A).

Lemma first_row_Some p table k a :
  first_row p table = Some (k, a) -> table !! k = Some a /\ p k a = true.
Proof.
  unfold first_row. intros H. apply find_some in H as [Hin Hp].
  split; [|exact Hp]. by apply elem_of_map_to_list, list_elem_of_In.
Qed.

Lemma first_row_None p table :
  first_row p table = None <-> forall k a, table !! k = Some a -> p k a = false.
Proof.
  unfold first_row. split.
  - intros H k a Hk.
    apply (find_none _ _ H (k, a)), list_elem_of_In. by apply elem_of_map_to_list.
  - intros H. destruct (List.find _ _) as [[k a]|] eqn:E; [|done].
    apply find_some in E as [Hin Hp]. simpl in Hp.
    apply list_elem_of_In, elem_of_map_to_list in Hin.
    rewrite (H _ _ Hin) in Hp. discriminate.
Qed.

Lemma first_row_found p table k a :
  table !! k = Some a -> p k a = true ->
  exists k' a', first_row p table = Some (k', a').
Proof.
  intros Hk Hp. destruct (first_row p table) as [[k' a']|] eqn:E; [by eauto|].
  rewrite first_row_None in E. rewrite (E _ _ Hk) in Hp. discriminate.
Qed.

(** Under a unique index a lookup by the indexed column finds the row. *)
Lemma first_row_unique p table k a :
  (forall k' a', table !! k' = Some a' -> p k' a' = true -> k' = k) ->
  table !! k = Some a -> p k a = true ->
  first_row p table = Some (k, a).
Proof.
  intros Huniq Hk Hp. destruct (first_row_found p table k a Hk Hp) as (k' & a' & E).
  destruct (first_row_Some _ _ _ _ E) as [Hk' Hp'].
  assert (k' = k) as -> by eauto. rewrite Hk in Hk'. by simplify_eq.
Qed.

Lemma omap_lookup_keys table (l : list (Z * A)) :
  (forall k a, (k, a) ∈ l -> table !! k = Some a) ->
  omap (fun k => pair k <$> table !! k) l.*1 = l.
Proof.
  induction l as [|[k a] l IH]; intros H; [done|]. csimpl.
  rewrite (H k a) by left. csimpl. f_equal.
  apply IH. intros k' a' Hin. apply H. by right.
Qed.

(** Whatever the order of the scan, it returns the rows of the table. *)
Lemma all_rows_Permutation table : all_rows table ≡ₚ map_to_list table.
Proof.
  unfold all_rows. rewrite (scan_order_permutes _).
  rewrite omap_lookup_keys; [done|].
  intros k a. apply elem_of_map_to_list.
Qed.

Lemma elem_of_all_rows table k a : (k, a) ∈ all_rows table <-> table !! k = Some a.
Proof. rewrite all_rows_Permutation. apply elem_of_map_to_list. Qed.

Lemma NoDup_fst_all_rows table : NoDup (all_rows table).*1.
Proof. rewrite all_rows_Permutation. apply NoDup_fst_map_to_list. Qed.

Lemma length_all_rows table : length (all_rows table) = size table.
Proof. rewrite all_rows_Permutation. apply length_map_to_list. Qed.

Lemma elem_of_rows p table k a :
  (k, a) ∈ rows p table <-> table !! k = Some a /\ p k a = true.
Proof.
  unfold rows. rewrite list_elem_of_In, filter_In, <-list_elem_of_In.
  by rewrite elem_of_all_rows.
Qed.

Lemma rows_nil p table :
  (forall k a, table !! k = Some a -> p k a = false) -> rows p table = [].
Proof.
  intros H. destruct (rows p table) as [|[k a] l] eqn:E; [done|].
  assert ((k, a) ∈ rows p table) as Hin by (rewrite E; left).
  apply elem_of_rows in Hin as [Hk Hp]. rewrite (H _ _ Hk) in Hp. discriminate.
Qed.

Lemma NoDup_fst_filter (q : Z * A -> bool) (l : list (Z * A)) :
  NoDup l.*1 -> NoDup (List.filter q l).*1.
Proof.
  induction l as [|r l IH]; [done|]. csimpl. intros Hnd.
  apply NoDup_cons in Hnd as [Hr Hnd]. destruct (q r); csimpl; [|by apply IH].
  apply NoDup_cons. split; [|by apply IH].
  intros Hin. apply Hr. apply list_elem_of_fmap in Hin as (x & -> & Hx).
  apply list_elem_of_fmap. exists x. split; [done|].
  apply list_elem_of_In in Hx. apply filter_In in Hx as [Hx _].
  by apply list_elem_of_In.
Qed.

(** The rows a query returns are the rows that satisfy its condition,
    each once. *)
Lemma rows_lists p (P : Z -> A -> Prop) table :
  (forall k a, p k a = true <-> P k a) -> lists_rows P table (rows p table).
Proof.
  intros HP. split.
  - apply NoDup_fst_filter, NoDup_fst_all_rows.
  - intros k a. by rewrite elem_of_rows, HP.
Qed.

Lemma keys_redacted (h : A -> A) table1 table2 :
  h <$> table1 = h <$> table2 -> (map_to_list table1).*1 = (map_to_list table2).*1.
Proof.
  intros Heq.
  assert (forall table, (map_to_list (h <$> table)).*1 = (map_to_list table).*1) as Hkeys.
  { intros table. rewrite map_to_list_fmap, <-list_fmap_compose.
    apply list_fmap_ext. by intros i [k a] _. }
  by rewrite <-(Hkeys table1), Heq, Hkeys.
Qed.

(** A listing computed from columns that a redaction [h] keeps is the
    same on two tables with the same redacted rows. *)
Lemma listing_redacted {B} (h : A -> A) (f : Z * A -> B) p table1 table2 :
  (forall k a, f (k, a) = f (k, h a)) ->
  (forall k a, p k a = p k (h a)) ->
  h <$> table1 = h <$> table2 ->
  f <$> rows p table1 = f <$> rows p table2.
Proof.
  intros Hf Hp Heq. unfold rows, all_rows. rewrite (keys_redacted h _ _ Heq).
  induction (scan_order _) as [|k l IH]; [done|]. csimpl.
  assert (h <$> table1 !! k = h <$> table2 !! k) as Hk
    by (by rewrite <-!lookup_fmap, Heq).
  destruct (table1 !! k) as [a1|], (table2 !! k) as [a2|];
    try discriminate Hk; csimpl; [|exact IH].
  injection Hk as Hk.
  rewrite (Hp k a1), (Hp k a2), Hk. destruct (p k (h a2)); csimpl; [|exact IH].
  by rewrite IH, (Hf k a1), (Hf k a2), Hk.
Qed.

Lemma rows_all table : rows (fun _ _ => true) table = all_rows table.
Proof.
  unfold rows. induction (all_rows table) as [|r l IH]; [done|].
  simpl. by rewrite IH.
Qed.

End DataLayer.


(** ** Evaluating guards and queries *)

#[global] Arguments await : simpl never.
#[global] Arguments send : simpl never.
#[global] Arguments sendStatus : simpl never.
#[global] Arguments as_Int : simpl never.
#[global] Arguments new_Date : simpl never.
#[global] Arguments falsy_or_zero : simpl never.
#[global] Arguments falsy_or_empty : simpl never.

Section Contracts.

Context `{RT : Runtime}.

Lemma falsy_or_zero_id (z : Z) : z <> 0 -> falsy_or_zero (Num (inject_Z z)) = false.
Proof. destruct z; [done|reflexivity|reflexivity]. Qed.

Lemma falsy_or_empty_text (t : string) : t <> "" -> falsy_or_empty (Str t) = false.
Proof.
  intros H. unfold falsy_or_empty, loose_eq, truthy. simpl.
  destruct (String.eqb_spec t ""); [done|reflexivity].
Qed.

Lemma falsy_or_empty_falsy (v : scalar) : truthy v = false -> falsy_or_empty v = true.
Proof. unfold falsy_or_empty. by intros ->. Qed.

Lemma falsy_or_zero_falsy (v : scalar) : truthy v = false -> falsy_or_zero v = true.
Proof. unfold falsy_or_zero. by intros ->. Qed.

Lemma as_Int_id (z : Z) : int32 z = true -> as_Int (Num (inject_Z z)) = Some z.
Proof.
  intros H. unfold as_Int. simpl. rewrite Z.quot_1_r. by rewrite H.
Qed.

Lemma await_group_findUnique_id (z : Z) (s : store) :
  int32 z = true ->
  await (prisma_group_findUnique_id (Num (inject_Z z))) s
  = (s, inr (pair z <$> groups s !! z)).
Proof.
  intros H. unfold prisma_group_findUnique_id, await, Int, bind.
  by rewrite (as_Int_id z H).
Qed.

Lemma await_user_update_null (i : Z) (u : User) (s : store) :
  int32 i = true -> users s !! i = Some u ->
  let row := {| u_name := u_name u; u_email := u_email u;
                u_password := u_password u; u_groupId := None |} in
  await (prisma_user_update_groupId (Num (inject_Z i)) Null) s
  = (set_users (insert i row) s, inr (i, row)).
Proof.
  intros H Hu. unfold prisma_user_update_groupId, await, Int, bind.
  rewrite (as_Int_id i H). simpl. by rewrite Hu.
Qed.

Lemma await_user_update_missing (i : Z) (g : scalar) (s : store) :
  int32 i = true -> users s !! i = None -> g = Null \/ (exists z, as_Int g = Some z) ->
  await (prisma_user_update_groupId (Num (inject_Z i)) g) s = failed P2025 s.
Proof.
  intros H Hu Hg. unfold prisma_user_update_groupId, await, Int, bind.
  rewrite (as_Int_id i H). simpl.
  destruct Hg as [->|[z Hz]].
  - simpl. by rewrite Hu.
  - destruct g; try discriminate. rewrite Hz. simpl. by rewrite Hu.
Qed.

Lemma await_user_update_group (i z : Z) (u : User) (g : Group) (s : store) :
  int32 i = true -> int32 z = true ->
  users s !! i = Some u -> groups s !! z = Some g ->
  let row := {| u_name := u_name u; u_email := u_email u;
                u_password := u_password u; u_groupId := Some z |} in
  await (prisma_user_update_groupId (Num (inject_Z i)) (Num (inject_Z z))) s
  = (set_users (insert i row) s, inr (i, row)).
Proof.
  intros Hi Hz Hu Hg. unfold prisma_user_update_groupId, await, Int, bind.
  rewrite (as_Int_id i Hi), (as_Int_id z Hz). simpl. rewrite Hu. simpl. by rewrite Hg.
Qed.

Lemma status_send (st : Z) (b : value) : status (send st b) = st.
Proof. reflexivity. Qed.

Lemma await_group_findMany_id (n : Z) (s : store) :
  int32 n = true ->
  await (prisma_group_findMany_id (Some n)) s
  = (s, inr (select_group s <$> rows (fun k _ => Z.eqb k n) (groups s))).
Proof.
  intros H. unfold prisma_group_findMany_id, await, Int_parsed, bind. simpl.
  by rewrite H.
Qed.

Lemma email_is_true (e : string) (k : Z) (u : User) :
  email_is e k u = true <-> u_email u = e.
Proof. unfold email_is. by destruct (String.eqb_spec (u_email u) e). Qed.

Lemma no_user_with_email (e : string) (s : store) :
  (forall id u, users s !! id = Some u -> u_email u <> e) ->
  first_row (email_is e) (users s) = None.
Proof.
  intros H. apply first_row_None. intros k u Hk.
  destruct (email_is e k u) eqn:E; [|done].
  apply email_is_true in E. by destruct (H _ _ Hk).
Qed.

Lemma the_user_with_email (e : string) (s : store) (id : Z) (u : User) :
  emails_unique s -> users s !! id = Some u -> u_email u = e ->
  first_row (email_is e) (users s) = Some (id, u).
Proof.
  intros Huniq Hid He. apply first_row_unique; [|done|by apply email_is_true].
  intros k v Hk Hv. apply email_is_true in Hv.
  apply (Huniq k id v u Hk Hid). congruence.
Qed.

Lemma some_user_with_email (e : string) (s : store) :
  (exists id u, users s !! id = Some u /\ u_email u = e) ->
  is_null (first_row (email_is e) (users s)) = false.
Proof.
  intros (id & u & Hid & He).
  destruct (first_row_found (email_is e) (users s) id u Hid) as (k & v & ->);
    [by apply email_is_true|done].
Qed.

Lemma name_is_true (n : string) (k : Z) (g : Group) :
  name_is n k g = true <-> g_name g = n.
Proof. unfold name_is. by destruct (String.eqb_spec (g_name g) n). Qed.

Lemma no_group_with_name (n : string) (s : store) :
  (forall id g, groups s !! id = Some g -> g_name g <> n) ->
  first_row (name_is n) (groups s) = None.
Proof.
  intros H. apply first_row_None. intros k g Hk.
  destruct (name_is n k g) eqn:E; [|done].
  apply name_is_true in E. by destruct (H _ _ Hk).
Qed.

Lemma some_group_with_name (n : string) (s : store) :
  (exists id g, groups s !! id = Some g /\ g_name g = n) ->
  is_null (first_row (name_is n) (groups s)) = false.
Proof.
  intros (id & g & Hid & Hn).
  destruct (first_row_found (name_is n) (groups s) id g Hid) as (k & v & ->);
    [by apply name_is_true|done].
Qed.

Lemma await_group_create (n h : string) (s : store) :
  (forall k g, groups s !! k = Some g -> g_name g <> n) ->
  groups s !! (group_seq s + 1) = None ->
  let row := {| g_name := n; g_password := h |} in
  await (prisma_group_create (Str n) h) s
  = (set_groups (insert (group_seq s + 1) row) (next_group_id s),
     inr (group_seq s + 1, row)).
Proof.
  intros Hfree Hid. unfold await, prisma_group_create, bind. simpl.
  by rewrite Hid, (no_group_with_name _ _ Hfree).
Qed.

(** *** POST /group/leave *)

Lemma leaveGroup_absent (groupJoin : object) (s : store) (userId groupId : Z) :
  groupJoin.["userId"] = Num (inject_Z userId) -> userId <> 0 ->
  groupJoin.["groupId"] = Num (inject_Z groupId) -> groupId <> 0 ->
  int32 groupId = true ->
  groups s !! groupId = None ->
  leaveGroup groupJoin s
  = (s, inr (send 400 (Obj [("error", text "Grupo não encontrado!")]))).
Proof.
  intros Hu Hu0 Hg Hg0 Hg32 Habs. unfold leaveGroup, try_catch, bind.
  rewrite Hu, Hg, (falsy_or_zero_id _ Hu0), (falsy_or_zero_id _ Hg0). simpl.
  rewrite (await_group_findUnique_id _ _ Hg32), Habs. reflexivity.
Qed.

Lemma leaveGroup_existing (groupJoin : object) (s : store) (userId groupId : Z)
    (u : User) (g : Group) :
  groupJoin.["userId"] = Num (inject_Z userId) -> userId <> 0 ->
  groupJoin.["groupId"] = Num (inject_Z groupId) -> groupId <> 0 ->
  int32 userId = true -> int32 groupId = true ->
  groups s !! groupId = Some g ->
  users s !! userId = Some u ->
  leaveGroup groupJoin s
  = (set_users (insert userId {| u_name := u_name u; u_email := u_email u;
                                 u_password := u_password u; u_groupId := None |}) s,
     inr (send 201 (Obj [("message", text "Usuário removido com sucesso!");
                         ("data", Obj [("id", int userId)])]))).
Proof.
  intros Hu Hu0 Hg Hg0 Hu32 Hg32 Hgr Hus. unfold leaveGroup, try_catch, bind.
  rewrite Hu, Hg, (falsy_or_zero_id _ Hu0), (falsy_or_zero_id _ Hg0). simpl.
  rewrite (await_group_findUnique_id _ _ Hg32), Hgr. simpl.
  rewrite (await_user_update_null _ _ _ Hu32 Hus). reflexivity.
Qed.


(** C10. Leaving checks that the group exists and nothing else: for an
    existing group and an existing user the request succeeds and clears
    the user's [groupId] whatever value [current] it held before, be it
    another group or none. *)
Theorem leaveGroup_ignores_membership (groupJoin : object) (s : store)
    (userId groupId : Z) (g : Group) (name email password : string)
    (current : option Z) :
  groupJoin.["userId"] = Num (inject_Z userId) -> userId <> 0 -> int32 userId = true ->
  groupJoin.["groupId"] = Num (inject_Z groupId) -> groupId <> 0 -> int32 groupId = true ->
  groups s !! groupId = Some g ->
  users s !! userId = Some {| u_name := name; u_email := email;
                              u_password := password; u_groupId := current |} ->
  leaveGroup groupJoin s
  = (set_users (insert userId {| u_name := name; u_email := email;
                                 u_password := password; u_groupId := None |}) s,
     inr (send 201 (Obj [("message", text "Usuário removido com sucesso!");
                         ("data", Obj [("id", int userId)])]))).
Proof.
  intros Hu Hu0 Hu32 Hg Hg0 Hg32 Hgr Hus.
  by rewrite (leaveGroup_existing _ _ _ _ _ _ Hu Hu0 Hg Hg0 Hu32 Hg32 Hgr Hus).
Qed.

(** *** GET /group/:id *)

(** C9, amended. For a numeric id that [parseInt] reads as an [Int] and
    that names no group the handler answers 200 with an empty list as
    [data]; whatever the id, it answers 200 or 400 and never 404. *)
Theorem getGroup_never_404 (id : string) (s : store) :
  (forall n, isNaN id = false -> parseInt id = Some n -> int32 n = true ->
             groups s !! n = None ->
   getGroup id s
   = (s, inr (send 200 (Obj [("message", text "Grupo obtido com sucesso!");
                             ("data", Arr [])]))))
  /\
  (exists r, getGroup id s = (s, inr r)
             /\ (status r = 200 \/ status r = 400) /\ status r <> 404).
Proof.
  split.
  - intros n Hnum Hn H32 Habs. unfold getGroup, try_catch, bind.
    rewrite Hnum, Hn. simpl. rewrite (await_group_findMany_id _ _ H32).
    rewrite rows_nil; [reflexivity|].
    intros k a Hk. destruct (Z.eqb_spec k n); [|done]. congruence.
  - unfold getGroup, try_catch, bind. destruct (isNaN id); simpl.
    + eexists. split; [reflexivity|]. vm_compute. split; [by right|discriminate].
    + unfold prisma_group_findMany_id, await, Int_parsed, bind.
      destruct (parseInt id) as [n|]; simpl.
      * destruct (int32 n); simpl;
          (eexists; split; [reflexivity|]; rewrite status_send;
           split; [auto|discriminate]).
      * eexists. split; [reflexivity|]. rewrite status_send.
        split; [auto|discriminate].
Qed.

(** *** POST /login *)

(** C5. A login request with a missing or empty email or password is
    refused as invalid (400); with both present as strings, it is
    answered 404 when no user has the email, 400 "Email ou senha
    incorretos!" when the password does not verify against the stored
    hash of the user with that email, and otherwise 200 with that user's
    id and the token signed over the user's id and email.  The store is
    never written. *)
Theorem login_contract (now : Z) (userLogin : object) (s : store) :
  (truthy userLogin.["email"] = false \/ truthy userLogin.["password"] = false ->
   login now userLogin s
   = (s, inr (send 400 (Obj [("error", text "Email ou senha inválidos")]))))
  /\
  (forall email password,
     userLogin.["email"] = Str email -> email <> "" ->
     userLogin.["password"] = Str password -> password <> "" ->
     ((forall id u, users s !! id = Some u -> u_email u <> email) ->
      login now userLogin s
      = (s, inr (send 404 (Obj [("error", text "Usuário não encontrado!")]))))
     /\
     (forall id u,
        emails_unique s -> users s !! id = Some u -> u_email u = email ->
        (compareSync password (u_password u) = false ->
         login now userLogin s
         = (s, inr (send 400 (Obj [("error", text "Email ou senha incorretos!")]))))
        /\
        (forall token,
           compareSync password (u_password u) = true ->
           jwt_sign id email JWTsecret "15d" now = Some token ->
           login now userLogin s
           = (s, inr (send 200 (Obj [("message", text "Login efetuado com sucesso!");
                                     ("data", Obj [("userId", int id);
                                                   ("token", text token)])])))))).
Proof.
  split.
  - intros H. unfold login, try_catch, bind.
    assert (falsy_or_empty userLogin.["email"] || falsy_or_empty userLogin.["password"]
            = true) as ->; [|reflexivity].
    destruct H as [H|H]; rewrite (falsy_or_empty_falsy _ H); [done|].
    by rewrite orb_true_r.
  - intros email password He He0 Hp Hp0.
    assert (falsy_or_empty (Str email) || falsy_or_empty (Str password) = false) as Hguard
      by (by rewrite (falsy_or_empty_text _ He0), (falsy_or_empty_text _ Hp0)).
    split.
    + intros Hnone. unfold login, try_catch, bind. rewrite He, Hp, Hguard. simpl.
      rewrite (no_user_with_email _ _ Hnone). reflexivity.
    + intros id u Huniq Hid Hem.
      split; [intros Hbad|intros token Hok Htok];
        unfold login, try_catch, bind; rewrite He, Hp, Hguard; simpl;
        rewrite (the_user_with_email _ _ _ _ Huniq Hid Hem); simpl.
      * by rewrite Hbad.
      * rewrite Hok. simpl. rewrite Hem, Htok. reflexivity.
Qed.

(** *** POST /user *)

(** C2. Once the three presence checks pass, the guard on [existUser]
    holds whatever the store contains, because the variable holds the
    query object and not its result: the handler always runs the branch
    that hashes the password and calls [prisma.user.create], and it
    answers with the outcome of that call.  An email that is already
    registered is therefore never answered by the handler's own
    "Email já" branch; the insert is attempted, and it is the unique
    index that refuses it. *)
Theorem register_always_creates (salt : string) (newUser : object) (s : store) :
  falsy_or_empty newUser.["name"] = false ->
  falsy_or_empty newUser.["email"] = false ->
  falsy_or_empty newUser.["password"] = false ->
  register salt newUser s
  = try_catch
      (bind (bcrypt_hashSync newUser.["password"] salt) (fun hash =>
       bind (await (prisma_user_create newUser.["name"] newUser.["email"] hash))
            (fun user =>
       ret (send 201 (Obj [("message", text "Usuário cadastrado com sucesso!");
                           ("data", Obj [("id", int user.1)])])))))
      catch_400 s
  /\
  (forall name email password,
     newUser.["name"] = Str name -> newUser.["email"] = Str email ->
     newUser.["password"] = Str password ->
     let hash := hashSync password salt in
     let id := user_seq s + 1 in
     ((exists i u, users s !! i = Some u /\ u_email u = email) ->
      register salt newUser s
      = (next_user_id s,
         inr (send 400 (Obj [("error", text (library_message P2002))]))))
     /\
     ((forall i u, users s !! i = Some u -> u_email u <> email) ->
      users s !! id = None ->
      register salt newUser s
      = (set_users (insert id {| u_name := name; u_email := email;
                                 u_password := hash; u_groupId := None |})
                   (next_user_id s),
         inr (send 201 (Obj [("message", text "Usuário cadastrado com sucesso!");
                             ("data", Obj [("id", int id)])]))))).
Proof.
  intros Hn He Hp.
  assert (register salt newUser s
          = try_catch
              (bind (bcrypt_hashSync newUser.["password"] salt) (fun hash =>
               bind (await (prisma_user_create newUser.["name"] newUser.["email"] hash))
                    (fun user =>
               ret (send 201 (Obj [("message", text "Usuário cadastrado com sucesso!");
                                   ("data", Obj [("id", int user.1)])])))))
              catch_400 s) as Hrun.
  { unfold register, try_catch, bind. rewrite Hn, He, Hp. reflexivity. }
  split; [exact Hrun|].
  intros name email password Hname Hemail Hpassword hash id. rewrite Hrun.
  rewrite Hname, Hemail, Hpassword. split.
  - intros Hdup. unfold try_catch, bind, await, prisma_user_create, bind. simpl.
    rewrite (some_user_with_email _ _ Hdup), andb_false_r. reflexivity.
  - intros Hfresh Hid. unfold try_catch, bind, await, prisma_user_create, bind. simpl.
    fold id. rewrite Hid, (no_user_with_email _ _ Hfresh). reflexivity.
Qed.

(** *** POST /group/join *)

Section Join.

Variables (groupJoin : object) (s : store) (userId groupId : Z) (password : string).
Hypothesis userId_present : groupJoin.["userId"] = Num (inject_Z userId) /\ userId <> 0.
Hypothesis groupId_present :
  groupJoin.["groupId"] = Num (inject_Z groupId) /\ groupId <> 0 /\ int32 groupId = true.
Hypothesis password_present : groupJoin.["password"] = Str password /\ password <> "".

Lemma joinGroup_absent :
  groups s !! groupId = None ->
  joinGroup groupJoin s
  = (s, inr (send 400 (Obj [("error", text "Já existe um grupo com esse nome!")]))).
Proof.
  destruct userId_present as [Hu Hu0], groupId_present as (Hg & Hg0 & Hg32),
    password_present as [Hp Hp0].
  intros Habs. unfold joinGroup, try_catch, bind.
  rewrite Hu, Hg, Hp, (falsy_or_zero_id _ Hu0), (falsy_or_zero_id _ Hg0),
          (falsy_or_empty_text _ Hp0). simpl.
  rewrite (await_group_findUnique_id _ _ Hg32), Habs. reflexivity.
Qed.

Lemma joinGroup_wrong_password (g : Group) :
  groups s !! groupId = Some g ->
  compareSync password (g_password g) = false ->
  joinGroup groupJoin s = (s, inr (send 400 (Obj [("error", text "Senha incorreta!")]))).
Proof.
  destruct userId_present as [Hu Hu0], groupId_present as (Hg & Hg0 & Hg32),
    password_present as [Hp Hp0].
  intros Hgr Hbad. unfold joinGroup, try_catch, bind.
  rewrite Hu, Hg, Hp, (falsy_or_zero_id _ Hu0), (falsy_or_zero_id _ Hg0),
          (falsy_or_empty_text _ Hp0). simpl.
  rewrite (await_group_findUnique_id _ _ Hg32), Hgr. simpl. by rewrite Hbad.
Qed.

Lemma joinGroup_joins (g : Group) (u : User) :
  groups s !! groupId = Some g ->
  compareSync password (g_password g) = true ->
  int32 userId = true -> users s !! userId = Some u ->
  joinGroup groupJoin s
  = (set_users (insert userId {| u_name := u_name u; u_email := u_email u;
                                 u_password := u_password u;
                                 u_groupId := Some groupId |}) s,
     inr (send 201 (Obj [("message", text "Usuário adicionado com sucesso!");
                         ("data", Obj [("id", int userId)])]))).
Proof.
  destruct userId_present as [Hu Hu0], groupId_present as (Hg & Hg0 & Hg32),
    password_present as [Hp Hp0].
  intros Hgr Hok Hu32 Hus. unfold joinGroup, try_catch, bind.
  rewrite Hu, Hg, Hp, (falsy_or_zero_id _ Hu0), (falsy_or_zero_id _ Hg0),
          (falsy_or_empty_text _ Hp0). simpl.
  rewrite (await_group_findUnique_id _ _ Hg32), Hgr. simpl. rewrite Hok.
  rewrite (await_user_update_group _ _ _ _ _ Hu32 Hg32 Hus Hgr). reflexivity.
Qed.

End Join.

(** C4. For a join request with all fields present and a [groupId] that
    names no group, the handler refuses with status 400 and the text of
    the duplicate-name error, "Já existe um grupo com esse nome!"; the
    sibling handler for leaving answers the same situation with "Grupo
    não encontrado!".  Nothing is written in either case. *)
Theorem joinGroup_absent_group_reports_duplicate_name
    (groupJoin : object) (s : store) (userId groupId : Z) (password : string) :
  groupJoin.["userId"] = Num (inject_Z userId) -> userId <> 0 ->
  groupJoin.["groupId"] = Num (inject_Z groupId) -> groupId <> 0 ->
  int32 groupId = true ->
  groupJoin.["password"] = Str password -> password <> "" ->
  groups s !! groupId = None ->
  joinGroup groupJoin s
  = (s, inr (send 400 (Obj [("error", text "Já existe um grupo com esse nome!")])))
  /\
  leaveGroup groupJoin s
  = (s, inr (send 400 (Obj [("error", text "Grupo não encontrado!")]))).
Proof.
  intros Hu Hu0 Hg Hg0 Hg32 Hp Hp0 Habs. split.
  - by eapply joinGroup_absent.
  - by eapply leaveGroup_absent.
Qed.

(** *** POST /group *)

Section Create.

Variables (salt : string) (newGroup : object) (s : store) (userId : Z)
          (name password : string).
Hypothesis userId_present : newGroup.["userId"] = Num (inject_Z userId) /\ userId <> 0.
Hypothesis name_present : newGroup.["name"] = Str name /\ name <> "".
Hypothesis password_present : newGroup.["password"] = Str password /\ password <> "".

Lemma createGroup_duplicate_name :
  (exists k g, groups s !! k = Some g /\ g_name g = name) ->
  createGroup salt newGroup s
  = (s, inr (send 400 (Obj [("error", text "Já existe um grupo com esse nome!")]))).
Proof.
  destruct userId_present as [Hu Hu0], name_present as [Hn Hn0],
    password_present as [Hp Hp0].
  intros Hdup. unfold createGroup, try_catch, bind.
  rewrite Hu, Hn, Hp, (falsy_or_zero_id _ Hu0), (falsy_or_empty_text _ Hn0),
          (falsy_or_empty_text _ Hp0). simpl.
  by rewrite (some_group_with_name _ _ Hdup).
Qed.

Let id := group_seq s + 1.
Let created :=
  set_groups (insert id {| g_name := name; g_password := hashSync password salt |})
             (next_group_id s).

Hypothesis name_free : forall k g, groups s !! k = Some g -> g_name g <> name.
Hypothesis id_free : groups s !! id = None.
Hypothesis id_fits : int32 id = true.

Lemma createGroup_then_update :
  createGroup salt newGroup s
  = (let (s', r) := await (prisma_user_update_groupId (Num (inject_Z id))
                                                     (Num (inject_Z id))) created in
     match r with
     | inr _ =>
       (s', inr (send 201 (Obj [("message", text "Grupo cadastrado com sucesso!");
                                ("data", Obj [("id", int id)])])))
     | inl e => (s', inr (send 400 (Obj [("error", text (message e))])))
     end).
Proof.
  destruct userId_present as [Hu Hu0], name_present as [Hn Hn0],
    password_present as [Hp Hp0].
  unfold createGroup, try_catch, bind.
  rewrite Hu, Hn, Hp, (falsy_or_zero_id _ Hu0), (falsy_or_empty_text _ Hn0),
          (falsy_or_empty_text _ Hp0). simpl.
  rewrite (no_group_with_name _ _ name_free). simpl.
  rewrite (await_group_create _ _ _ name_free id_free). simpl.
  fold id created.
  by destruct (await _ created) as [s' [e|user]].
Qed.

Lemma createGroup_member (v : User) :
  users s !! id = Some v ->
  createGroup salt newGroup s
  = (set_users (insert id {| u_name := u_name v; u_email := u_email v;
                             u_password := u_password v; u_groupId := Some id |})
               created,
     inr (send 201 (Obj [("message", text "Grupo cadastrado com sucesso!");
                         ("data", Obj [("id", int id)])]))).
Proof.
  intros Hv. rewrite createGroup_then_update.
  rewrite (await_user_update_group id id v
             {| g_name := name; g_password := hashSync password salt |} created
             id_fits id_fits); [reflexivity|exact Hv|].
  unfold created. simpl. apply lookup_insert_eq.
Qed.

Lemma createGroup_no_member :
  users s !! id = None ->
  createGroup salt newGroup s
  = (created, inr (send 400 (Obj [("error", text (library_message P2025))]))).
Proof.
  intros Hv. rewrite createGroup_then_update.
  rewrite (await_user_update_missing id (Num (inject_Z id)) created id_fits);
    [reflexivity|exact Hv|].
  right. exists id. by apply as_Int_id.
Qed.

End Create.

(** C1. What the handler does when the name is free (the new group
    takes the id [id], the next value of the sequence): the group is
    created, and the row whose [groupId] is set is the user whose id
    equals [id], not the user named by [userId].  If such a user exists
    it becomes the member and the answer is 201; if none exists the
    answer is 400 although the group has been created; in both cases a
    creator with another id keeps the [groupId] it had. *)
Theorem createGroup_links_user_numbered_like_group
    (salt : string) (newGroup : object) (s : store) (userId : Z)
    (name password : string) :
  newGroup.["userId"] = Num (inject_Z userId) -> userId <> 0 ->
  newGroup.["name"] = Str name -> name <> "" ->
  newGroup.["password"] = Str password -> password <> "" ->
  (forall k g, groups s !! k = Some g -> g_name g <> name) ->
  let id := group_seq s + 1 in
  let created :=
    set_groups (insert id {| g_name := name; g_password := hashSync password salt |})
               (next_group_id s) in
  groups s !! id = None -> int32 id = true ->
  (forall v, users s !! id = Some v ->
     createGroup salt newGroup s
     = (set_users (insert id {| u_name := u_name v; u_email := u_email v;
                                u_password := u_password v; u_groupId := Some id |})
                  created,
        inr (send 201 (Obj [("message", text "Grupo cadastrado com sucesso!");
                            ("data", Obj [("id", int id)])]))))
  /\
  (users s !! id = None ->
     createGroup salt newGroup s
     = (created, inr (send 400 (Obj [("error", text (library_message P2025))]))))
  /\
  (userId <> id ->
     users (createGroup salt newGroup s).1 !! userId = users s !! userId).
Proof.
  intros Hu Hu0 Hn Hn0 Hp Hp0 Hfree id created Hid H32.
  assert (forall v, users s !! id = Some v -> _) as Hmember
    by (intros v; by apply (createGroup_member salt newGroup s userId name password)).
  assert (users s !! id = None -> _) as Hnone
    by (by apply (createGroup_no_member salt newGroup s userId name password)).
  split; [exact Hmember|]. split; [exact Hnone|].
  intros Hne. destruct (users s !! id) as [v|] eqn:Hv.
  - rewrite (Hmember v eq_refl). simpl. by rewrite lookup_insert_ne.
  - by rewrite (Hnone eq_refl).
Qed.

(** *** POST /spending and GET /spending/:userId *)

Lemma falsy_or_zero_num (q : Q) : is_zero q = false -> falsy_or_zero (Num q) = false.
Proof.
  unfold falsy_or_zero, is_zero, truthy, loose_eq, is_zero, Qeq_bool. simpl.
  intros H. rewrite H, Z.mul_1_r. simpl.
  destruct (Qnum q); [discriminate|reflexivity|reflexivity].
Qed.


Lemma new_Date_text (d : string) : new_Date (Str d) = Date_parse d.
Proof. reflexivity. Qed.

Section Spending.

Variables (newSpending : object) (s : store) (userId day : Z) (value : Q) (text_day : string).
Hypothesis userId_present : newSpending.["userId"] = Num (inject_Z userId) /\ userId <> 0.
Hypothesis day_present : newSpending.["day"] = Str text_day /\ text_day <> "".
Hypothesis value_present : newSpending.["value"] = Num value /\ is_zero value = false.
Hypothesis day_parses : Date_parse text_day = Some day.

Lemma create_reaches_prisma :
  create newSpending s
  = (let (s', r) := await (prisma_spending_create newSpending.["name"] day
                             (Num value) (Num (inject_Z userId))) s in
     match r with
     | inr spending =>
       (s', inr (send 201 (Obj [("message", text "Gasto cadastrado com sucesso!");
                                ("data", Obj [("id", int spending.1)])])))
     | inl e => (s', inr (send 400 (Obj [("error", text (message e))])))
     end).
Proof.
  destruct userId_present as [Hu Hu0], day_present as [Hd Hd0],
    value_present as [Hv Hv0].
  unfold create, try_catch, bind.
  rewrite Hu, Hd, Hv, (falsy_or_zero_id _ Hu0), (falsy_or_empty_text _ Hd0),
          (falsy_or_zero_num _ Hv0). simpl.
  rewrite new_Date_text, day_parses.
  by destruct (await _ s) as [s' [e|sp]].
Qed.

Lemma create_without_name :
  newSpending.["name"] = Undefined ->
  create newSpending s
  = (s, inr (send 400 (Obj [("error", text (library_message PrismaValidationError))]))).
Proof. intros Hn. rewrite create_reaches_prisma, Hn. reflexivity. Qed.

Lemma create_persists (name : string) (u : User) :
  newSpending.["name"] = Str name -> DateTime_fits day = true ->
  int32 userId = true -> users s !! userId = Some u ->
  spendings s !! (spending_seq s + 1) = None ->
  create newSpending s
  = (set_spendings (insert (spending_seq s + 1)
                      {| sp_name := name; sp_day := day; sp_value := value;
                         sp_userId := userId |}) (next_spending_id s),
     inr (send 201 (Obj [("message", text "Gasto cadastrado com sucesso!");
                         ("data", Obj [("id", int (spending_seq s + 1))])]))).
Proof.
  intros Hn Hfits H32 Hu Hid. rewrite create_reaches_prisma, Hn.
  unfold await, prisma_spending_create, DateTime, Int, bind. simpl.
  rewrite Hfits, (as_Int_id _ H32). simpl. by rewrite Hid, Hu.
Qed.

End Spending.

Lemma create_rejections (newSpending : object) (s : store) :
  (falsy_or_zero newSpending.["userId"] = true ->
   create newSpending s
   = (s, inr (send 400 (Obj [("error",
                              text "Um gasto deve estar relacionado a um usuário!")]))))
  /\
  (falsy_or_zero newSpending.["userId"] = false ->
   falsy_or_empty newSpending.["day"] = true ->
   create newSpending s
   = (s, inr (send 400 (Obj [("error", text "Dia é obrigatório!")]))))
  /\
  (falsy_or_zero newSpending.["userId"] = false ->
   falsy_or_empty newSpending.["day"] = false ->
   falsy_or_zero newSpending.["value"] = true ->
   create newSpending s
   = (s, inr (send 400 (Obj [("error", text "Valor é obrigatório!")]))))
  /\
  (falsy_or_zero newSpending.["userId"] = false ->
   falsy_or_empty newSpending.["day"] = false ->
   falsy_or_zero newSpending.["value"] = false ->
   new_Date newSpending.["day"] = None ->
   create newSpending s
   = (s, inr (send 400 (Obj [("error", text "Formato de data inválido!")])))).
Proof.
  repeat split; intros; unfold create, try_catch, bind;
    repeat match goal with H : _ = _ |- _ => rewrite H; clear H end; reflexivity.
Qed.

(** C7. A spending request that carries a [userId], a parseable [day]
    and a non-zero [value] but no [name] is not persisted: the required
    column [name] of the schema makes the client refuse the insert, and
    the handler answers 400 with the text of that validation error. *)
Theorem create_without_name_is_refused (newSpending : object) (s : store)
    (userId day : Z) (value : Q) (text_day : string) :
  newSpending.["userId"] = Num (inject_Z userId) -> userId <> 0 ->
  newSpending.["day"] = Str text_day -> text_day <> "" ->
  Date_parse text_day = Some day ->
  newSpending.["value"] = Num value -> is_zero value = false ->
  newSpending.["name"] = Undefined ->
  create newSpending s
  = (s, inr (send 400 (Obj [("error", text (library_message PrismaValidationError))]))).
Proof.
  intros Hu Hu0 Hd Hd0 Hparse Hv Hv0 Hn.
  by eapply create_without_name.
Qed.

Ltac refused H Hst :=
  unfold catch_400, ret, throw, failed in H; simpl in H;
  injection H as <- <-; vm_compute in Hst; discriminate.


(** *** The unique index on emails is an invariant of every route *)

Lemma preserves_ret {A} (I : store -> Prop) (a : A) : preserves I (ret a).
Proof. by intros s s' r HI [= <- <-]. Qed.

Lemma preserves_throw {A} (I : store -> Prop) (e : error) : preserves I (@throw A e).
Proof. by intros s s' r HI [= <- <-]. Qed.

Lemma preserves_throw_if (I : store -> Prop) (c : bool) (msg : string) :
  preserves I (throw_if c msg).
Proof. destruct c; [apply preserves_throw|apply preserves_ret]. Qed.

Lemma preserves_bind {A B} (I : store -> Prop) (m : M A) (k : A -> M B) :
  preserves I m -> (forall a, preserves I (k a)) -> preserves I (bind m k).
Proof.
  intros Hm Hk s s' r HI. unfold bind.
  destruct (m s) as [s1 [e|a]] eqn:E.
  - intros [= <- <-]. by apply (Hm _ _ _ HI E).
  - apply Hk. by apply (Hm _ _ _ HI E).
Qed.

Lemma preserves_try_catch {A} (I : store -> Prop) (m : M A) (h : error -> M A) :
  preserves I m -> (forall e, preserves I (h e)) -> preserves I (try_catch m h).
Proof.
  intros Hm Hh s s' r HI. unfold try_catch.
  destruct (m s) as [s1 [e|a]] eqn:E.
  - apply Hh. by apply (Hm _ _ _ HI E).
  - intros [= <- <-]. by apply (Hm _ _ _ HI E).
Qed.

Lemma preserves_validated {A} (I : store -> Prop) (a : option A) :
  preserves I (validated a).
Proof. destruct a; [apply preserves_ret|apply preserves_throw]. Qed.

(** A query that leaves the table of users as it is. *)
Lemma preserves_same_users {A} (m : M A) :
  (forall s s' r, m s = (s', r) -> users s' = users s) ->
  preserves emails_unique m.
Proof.
  intros Hm s s' r HI H. unfold emails_unique. rewrite (Hm _ _ _ H). exact HI.
Qed.

Lemma insert_keeps_emails_unique (s : store) (i : Z) (row : User) :
  emails_unique s ->
  (forall j v, users s !! j = Some v -> u_email v = u_email row -> j = i) ->
  emails_unique (set_users (insert i row) s).
Proof.
  intros HI Hrow j1 j2 v1 v2. simpl. rewrite !lookup_insert_Some.
  intros [[<- <-]|[? H1]] [[<- <-]|[? H2]] He; try done.
  - symmetry. by apply (Hrow _ _ H2).
  - by apply (Hrow _ _ H1).
  - by apply (HI _ _ _ _ H1 H2).
Qed.

Lemma user_create_preserves (name email : scalar) (password : string) :
  preserves emails_unique (await (prisma_user_create name email password)).
Proof.
  unfold await, prisma_user_create.
  apply preserves_bind; [apply preserves_validated|intros n].
  apply preserves_bind; [apply preserves_validated|intros e].
  intros s s' r HI. simpl.
  destruct (users s !! (user_seq s + 1)) eqn:Hid; simpl; [by intros [= <- <-]|].
  destruct (first_row (email_is e) (users s)) eqn:Hfree; simpl; [by intros [= <- <-]|].
  intros [= <- <-].
  apply (insert_keeps_emails_unique (next_user_id s)); [exact HI|].
  intros j v Hj Hv. simpl in Hj, Hv.
  rewrite first_row_None in Hfree. apply (email_is_true e j v) in Hv.
  rewrite (Hfree _ _ Hj) in Hv. discriminate.
Qed.

Lemma user_update_preserves (id groupId : scalar) :
  preserves emails_unique (await (prisma_user_update_groupId id groupId)).
Proof.
  unfold await, prisma_user_update_groupId.
  apply preserves_bind; [apply preserves_validated|intros i].
  apply preserves_bind.
  { destruct groupId; try apply preserves_ret;
      (apply preserves_bind; [apply preserves_validated|intros; apply preserves_ret]). }
  intros change s s' r HI.
  destruct (users s !! i) as [u|] eqn:Hu; [|by intros [= <- <-]].
  assert (forall g, emails_unique
            (set_users (insert i {| u_name := u_name u; u_email := u_email u;
                                    u_password := u_password u; u_groupId := g |}) s))
    as Hins.
  { intros g. apply insert_keeps_emails_unique; [exact HI|].
    intros j v Hj Hv. by apply (HI _ _ _ _ Hj Hu). }
  destruct (default (u_groupId u) change) as [z|]; [|intros [= <- <-]; apply Hins].
  destruct (is_null (groups s !! z)); intros [= <- <-]; [exact HI|apply Hins].
Qed.

Ltac same_users :=
  unfold await, prisma_user_findUnique_email, prisma_group_findUnique_name,
    prisma_group_findUnique_id, prisma_group_create, prisma_group_findMany,
    prisma_group_findMany_id, prisma_spending_findMany_userId,
    prisma_spending_findUnique_id, prisma_spending_create, prisma_spending_update,
    prisma_spending_delete;
  repeat lazymatch goal with
  | |- preserves _ (bind _ _) => apply preserves_bind; [|intros ?]
  | |- preserves _ (Int _) => apply preserves_validated
  | |- preserves _ (Int_parsed _) => apply preserves_validated
  | |- preserves _ (String_ _) => apply preserves_validated
  | |- preserves _ (Float _) => apply preserves_validated
  | |- preserves _ (DateTime _) => apply preserves_validated
  | |- preserves _ (ret _) => apply preserves_ret
  | |- preserves _ (match ?o with _ => _ end) => destruct o
  | |- preserves _ (fun _ => _) =>
    apply preserves_same_users; intros s s' r; unfold failed; cbv zeta;
    repeat match goal with
           | |- context [match ?x with _ => _ end] => destruct x
           end;
    intros [= <- _]; reflexivity
  end.

Ltac preserves_step :=
  lazymatch goal with
  | |- preserves _ (try_catch _ _) => apply preserves_try_catch; [|intros ?]
  | |- preserves _ (catch_400 _) => apply preserves_ret
  | |- preserves _ (throw_if _ _) => apply preserves_throw_if
  | |- preserves _ (await (prisma_user_create _ _ _)) => apply user_create_preserves
  | |- preserves _ (await (prisma_user_update_groupId _ _)) => apply user_update_preserves
  | |- preserves _ (await _) => same_users
  | |- preserves _ (bcrypt_hashSync ?p _) => unfold bcrypt_hashSync; destruct p
  | |- preserves _ (bcrypt_compareSync ?p _) => unfold bcrypt_compareSync; destruct p
  | |- preserves _ (bind _ _) => apply preserves_bind; [|intros ?]
  | |- preserves _ (ret _) => apply preserves_ret
  | |- preserves _ (throw _) => apply preserves_throw
  | |- preserves _ (if ?c then _ else _) => destruct c
  | |- preserves _ (match ?o with _ => _ end) => destruct o
  end.

Lemma emails_unique_empty : emails_unique empty_store.
Proof. intros i j u v. simpl. by rewrite lookup_empty. Qed.

Lemma emails_stay_unique (req : request) : preserves emails_unique (handle req).
Proof.
  destruct req; simpl;
    unfold register, login, listGroups, getGroup, createGroup, joinGroup, leaveGroup,
           listByUser, create, update, delete_;
    cbv zeta; repeat preserves_step.
Qed.

(** *** What a response can disclose *)

Lemma existsb_fmap_false {A} (f : A -> value) (k : string) (l : list A) :
  (forall x, mentions k (f x) = false) -> existsb (mentions k) (f <$> l) = false.
Proof. intros H. induction l as [|x l IH]; [done|]. csimpl. by rewrite H, IH. Qed.

Lemma select_spending_discreet r : mentions "password" (select_spending r) = false.
Proof. reflexivity. Qed.

Lemma select_user_discreet s r : mentions "password" (select_user s r) = false.
Proof.
  unfold select_user. simpl.
  rewrite existsb_fmap_false; [reflexivity|apply select_spending_discreet].
Qed.

Lemma select_group_discreet s r : mentions "password" (select_group s r) = false.
Proof.
  unfold select_group. simpl.
  rewrite existsb_fmap_false; [reflexivity|apply select_user_discreet].
Qed.

Lemma discreet_send (st : Z) (b : value) :
  mentions "password" b = false -> discreet (ret (send st b)).
Proof.
  intros H s s' r [= <- <-]. unfold send. simpl.
  by destruct (Z.eqb st 204 || Z.eqb st 304).
Qed.

Lemma discreet_sendStatus (st : Z) : discreet (ret (sendStatus st)).
Proof. apply discreet_send. reflexivity. Qed.

Lemma discreet_throw (e : error) : discreet (throw e).
Proof. intros s s' r. discriminate. Qed.

Lemma discreet_bind_with {A} (P : A -> Prop) (m : M A) (k : A -> M response) :
  (forall s s' a, m s = (s', inr a) -> P a) ->
  (forall a, P a -> discreet (k a)) ->
  discreet (bind m k).
Proof.
  intros Hm Hk s s' r. unfold bind.
  destruct (m s) as [s1 [e|a]] eqn:E; [discriminate|].
  intros H. by apply (Hk a (Hm _ _ _ E) s1 s' r).
Qed.

Lemma discreet_bind {A} (m : M A) (k : A -> M response) :
  (forall a, discreet (k a)) -> discreet (bind m k).
Proof. intros Hk. by apply (discreet_bind_with (fun _ => True)). Qed.

Lemma discreet_try_catch (m : M response) :
  discreet m -> discreet (try_catch m catch_400).
Proof.
  intros Hm s s' r. unfold try_catch.
  destruct (m s) as [s1 [e|a]] eqn:E.
  - by apply discreet_send.
  - intros [= <- <-]. by apply (Hm _ _ _ E).
Qed.

Ltac discreet_step :=
  lazymatch goal with
  | |- discreet (try_catch _ catch_400) => apply discreet_try_catch
  | |- discreet (bind _ _) => apply discreet_bind; intros ?
  | |- discreet (ret (send _ _)) => apply discreet_send; reflexivity
  | |- discreet (ret (sendStatus _)) => apply discreet_sendStatus
  | |- discreet (throw _) => apply discreet_throw
  | |- discreet (if ?c then _ else _) => destruct c
  | |- discreet (match ?o with _ => _ end) => destruct o
  end.

Lemma every_handler_discreet (req : request) : discreet (handle req).
Proof.
  destruct req; simpl.
  - unfold register. cbv zeta. repeat discreet_step.
  - unfold login. repeat discreet_step.
  - unfold listGroups. discreet_step.
    apply (discreet_bind_with (fun l => exists t rs, l = select_group t <$> rs)).
    + intros s s' l [= <- <-]. eauto.
    + intros l (t & rs & ->). apply discreet_send. simpl.
      rewrite existsb_fmap_false; [reflexivity|apply select_group_discreet].
  - unfold getGroup. cbv zeta. discreet_step. discreet_step; [|discreet_step].
    apply (discreet_bind_with (fun l => exists t rs, l = select_group t <$> rs)).
    + intros s s' l. unfold prisma_group_findMany_id, await, bind.
      destruct (Int_parsed (parseInt id) s) as [s1 [e|i]]; [discriminate|].
      intros [= <- <-]. eauto.
    + intros l (t & rs & ->). apply discreet_send. simpl.
      rewrite existsb_fmap_false; [reflexivity|apply select_group_discreet].
  - unfold createGroup. repeat discreet_step.
  - unfold joinGroup. repeat discreet_step.
  - unfold leaveGroup. repeat discreet_step.
  - unfold listByUser. cbv zeta. repeat discreet_step.
    apply discreet_send. simpl.
    rewrite existsb_fmap_false; [reflexivity|apply select_spending_discreet].
  - unfold create. repeat discreet_step.
  - unfold update. cbv zeta. repeat discreet_step.
  - unfold delete_. cbv zeta. repeat discreet_step.
Qed.

Lemma select_user_same (s1 s2 : store) (r : Z * User) :
  spendings s1 = spendings s2 -> select_user s1 r = select_user s2 r.
Proof. intros H. unfold select_user. by rewrite H. Qed.

Lemma members_same (s1 s2 : store) (g : Z) :
  same_but_passwords s1 s2 ->
  select_user s1 <$> rows (member_of g) (users s1)
  = select_user s2 <$> rows (member_of g) (users s2).
Proof.
  intros (Hu & _ & Hsp & _).
  rewrite (listing_redacted without_user_password (select_user s1) (member_of g)
             (users s1) (users s2)); [|done|done|exact Hu].
  apply list_fmap_ext. intros i r _. by apply select_user_same.
Qed.

Lemma select_group_same (s1 s2 : store) (r : Z * Group) :
  same_but_passwords s1 s2 -> select_group s1 r = select_group s2 r.
Proof. intros H. unfold select_group. by rewrite (members_same s1 s2 r.1 H). Qed.

Lemma group_rows_same (s1 s2 : store) (p : Z -> bool) :
  same_but_passwords s1 s2 ->
  select_group s1 <$> rows (fun k _ => p k) (groups s1)
  = select_group s2 <$> rows (fun k _ => p k) (groups s2).
Proof.
  intros H. pose proof H as (_ & Hg & _).
  rewrite (listing_redacted without_group_password (select_group s1)
             (fun k _ => p k) (groups s1) (groups s2)); [|done|done|exact Hg].
  apply list_fmap_ext. intros i r _. by apply select_group_same.
Qed.

Lemma listGroups_same (s1 s2 : store) :
  same_but_passwords s1 s2 -> (listGroups s1).2 = (listGroups s2).2.
Proof.
  intros H. unfold listGroups, try_catch, bind. simpl.
  rewrite <-!rows_all. by rewrite (group_rows_same s1 s2 (fun _ => true) H).
Qed.

Lemma getGroup_same (id : string) (s1 s2 : store) :
  same_but_passwords s1 s2 -> (getGroup id s1).2 = (getGroup id s2).2.
Proof.
  intros H. unfold getGroup, try_catch, bind.
  destruct (isNaN id); [reflexivity|]. simpl.
  unfold prisma_group_findMany_id, await, Int_parsed, bind.
  destruct (parseInt id) as [n|]; [|reflexivity]. simpl.
  destruct (int32 n); [|reflexivity]. simpl.
  by rewrite (group_rows_same s1 s2 (fun k => Z.eqb k n) H).
Qed.

(** C3. No response of any handler carries a [password] key, at any
    depth; and the two group listings return the same response on two
    stores that differ only in the password hashes of their users and
    groups. *)
Theorem passwords_never_returned :
  (forall req s s' r,
     handle req s = (s', inr r) -> mentions "password" (body r) = false)
  /\
  (forall s1 s2,
     same_but_passwords s1 s2 ->
     (listGroups s1).2 = (listGroups s2).2
     /\ forall id, (getGroup id s1).2 = (getGroup id s2).2).
Proof.
  split.
  - intros req s s' r. apply every_handler_discreet.
  - intros s1 s2 H. split; [by apply listGroups_same|].
    intros id. by apply getGroup_same.
Qed.

(** *** PUT /spending/:id and DELETE /spending/:id *)

Lemma NaN_or_zero_id (n : Z) : n <> 0 -> NaN_or_zero (Some n) = false.
Proof. intros H. simpl. by apply Z.eqb_neq. Qed.

Lemma await_spending_findUnique_id (n : Z) (s : store) :
  int32 n = true ->
  await (prisma_spending_findUnique_id (Some n)) s
  = (s, inr (pair n <$> spendings s !! n)).
Proof.
  intros H. unfold prisma_spending_findUnique_id, await, Int_parsed, bind. simpl.
  by rewrite H.
Qed.

Section Update.

Variables (id : string) (updateSpending : object) (s : store)
          (spendingID userId day : Z) (value : Q) (text_day : string).
Hypothesis id_numeric :
  isNaN id = false /\ parseInt id = Some spendingID
  /\ spendingID <> 0 /\ int32 spendingID = true.
Hypothesis userId_present :
  updateSpending.["userId"] = Num (inject_Z userId) /\ userId <> 0.
Hypothesis day_present : updateSpending.["day"] = Str text_day /\ text_day <> "".
Hypothesis value_present :
  updateSpending.["value"] = Num value /\ is_zero value = false.
Hypothesis day_parses : Date_parse text_day = Some day.

Lemma update_reaches_prisma :
  update id updateSpending s
  = match spendings s !! spendingID with
    | None => (s, inr (send 404 (Obj [("error", text "Gasto não encontrado!")])))
    | Some _ =>
      let (s', r) := await (prisma_spending_update (Some spendingID)
                              updateSpending.["name"] day (Num value)
                              (Num (inject_Z userId))) s in
      match r with
      | inr spending =>
        (s', inr (send 204 (Obj [("message", text "Gasto atualizado com sucesso!");
                                 ("data", Obj [("id", int spending.1)])])))
      | inl e => (s', inr (send 400 (Obj [("error", text (message e))])))
      end
    end.
Proof.
  destruct id_numeric as (Hnum & Hid & Hid0 & Hid32), userId_present as [Hu Hu0],
    day_present as [Hd Hd0], value_present as [Hv Hv0].
  unfold update, try_catch, bind.
  rewrite Hnum, Hid, Hu, Hd, Hv, (NaN_or_zero_id _ Hid0), (falsy_or_zero_id _ Hu0),
          (falsy_or_empty_text _ Hd0), (falsy_or_zero_num _ Hv0). simpl.
  rewrite new_Date_text, day_parses.
  rewrite (await_spending_findUnique_id _ _ Hid32).
  destruct (spendings s !! spendingID) as [old|]; simpl; [|reflexivity].
  by destruct (await _ s) as [s' [e|sp]].
Qed.

Lemma await_spending_update (name : scalar) (old : Spending) :
  DateTime_fits day = true -> int32 userId = true ->
  spendings s !! spendingID = Some old ->
  name = Undefined \/ (exists t, name = Str t) ->
  await (prisma_spending_update (Some spendingID) name day (Num value)
           (Num (inject_Z userId))) s
  = let row := {| sp_name := match name with Str t => t | _ => sp_name old end;
                  sp_day := day; sp_value := value; sp_userId := userId |} in
    if is_null (users s !! userId) then failed P2003 s
    else (set_spendings (insert spendingID row) s, inr (spendingID, row)).
Proof.
  destruct id_numeric as (_ & _ & _ & Hid32).
  intros Hfits Hu32 Hold Hname.
  unfold await, prisma_spending_update, Int_parsed, DateTime, Int, bind. simpl.
  rewrite Hid32. simpl.
  destruct Hname as [->|[t ->]]; simpl; rewrite Hfits, (as_Int_id _ Hu32); simpl;
    by rewrite Hold.
Qed.

End Update.


(** X2. An update whose body has no [name] is accepted, its [day]
    parsing to a date of the years 1 to 9999: the stored name is kept
    and the day, value and owner are overwritten. *)
Theorem update_keeps_omitted_name (id : string) (updateSpending : object) (s : store)
    (spendingID userId day : Z) (value : Q) (text_day : string) (old : Spending) :
  isNaN id = false -> parseInt id = Some spendingID ->
  spendingID <> 0 -> int32 spendingID = true ->
  updateSpending.["userId"] = Num (inject_Z userId) -> userId <> 0 ->
  int32 userId = true ->
  updateSpending.["day"] = Str text_day -> text_day <> "" ->
  Date_parse text_day = Some day -> DateTime_fits day = true ->
  updateSpending.["value"] = Num value -> is_zero value = false ->
  updateSpending.["name"] = Undefined ->
  spendings s !! spendingID = Some old -> is_Some (users s !! userId) ->
  update id updateSpending s
  = (set_spendings (insert spendingID {| sp_name := sp_name old; sp_day := day;
                                         sp_value := value; sp_userId := userId |}) s,
     inr (send 204 (Obj [("message", text "Gasto atualizado com sucesso!");
                         ("data", Obj [("id", int spendingID)])]))).
Proof.
  intros Hnum Hid Hid0 Hid32 Hu Hu0 Hu32 Hd Hd0 Hparse Hfits Hv Hv0 Hn Hold [u Hus].
  rewrite (update_reaches_prisma id updateSpending s spendingID userId day value
             text_day (conj Hnum (conj Hid (conj Hid0 Hid32))) (conj Hu Hu0)
             (conj Hd Hd0) (conj Hv Hv0) Hparse), Hold, Hn.
  rewrite (await_spending_update id s spendingID userId day value
             (conj Hnum (conj Hid (conj Hid0 Hid32))) Undefined old Hfits Hu32 Hold);
    [|by left].
  by rewrite Hus.
Qed.


(** The listing of a user, read back from the response. *)
Lemma listByUser_found (param : string) (s s' : store) (found : list value) :
  listByUser param s
  = (s', inr (send 200 (Obj [("message", text "Lista de gastos obtidas com sucesso!");
                             ("data", Arr found)]))) ->
  exists userId, parseInt param = Some userId
                 /\ found = select_spending <$> rows (owned_by userId) (spendings s).
Proof.
  unfold listByUser, bind. destruct (isNaN param); simpl.
  { intros H. discriminate H. }
  unfold await, prisma_spending_findMany_userId, Int_parsed, bind.
  destruct (parseInt param) as [userId|]; simpl; [|discriminate].
  destruct (int32 userId); simpl; [|discriminate].
  intros [= _ <-]. by exists userId.
Qed.


(** X5. Once a deletion has been answered 204 the spending is gone: the
    same deletion repeated is answered 404, and no listing that follows
    holds a spending with the deleted id. *)
Theorem delete_then_gone (id : string) (s s' : store) (r : response) :
  delete_ id s = (s', inr r) -> status r = 204 ->
  exists spendingID,
    parseInt id = Some spendingID
    /\ spendings s' !! spendingID = None
    /\ delete_ id s'
       = (s', inr (send 404 (Obj [("error", text "Gasto não encontrado!")])))
    /\ forall param found,
         listByUser param s'
         = (s', inr (send 200 (Obj [("message",
                                     text "Lista de gastos obtidas com sucesso!");
                                    ("data", Arr found)]))) ->
         forall sp, select_spending (spendingID, sp) ∉ found.
Proof.
  intros H Hst. unfold delete_, try_catch, bind in H.
  destruct (isNaN id) eqn:Hnum; simpl in H; [refused H Hst|].
  destruct (parseInt id) as [n|] eqn:Hid; simpl in H; [|refused H Hst].
  destruct (Z.eqb_spec n 0) as [|Hn0]; simpl in H; [refused H Hst|].
  unfold await, prisma_spending_findUnique_id, prisma_spending_delete,
    Int_parsed, bind in H. simpl in H.
  destruct (int32 n) eqn:H32; simpl in H; [|refused H Hst].
  destruct (spendings s !! n) as [old|] eqn:Hold; simpl in H; [|refused H Hst].
  rewrite Hold in H. simpl in H. injection H as <- <-.
  assert (spendings (set_spendings (delete n) s) !! n = None) as Hgone
    by apply lookup_delete_eq.
  exists n. split; [done|]. split; [exact Hgone|]. split.
  - unfold delete_, try_catch, bind.
    rewrite Hnum, Hid, (NaN_or_zero_id _ Hn0). simpl.
    rewrite (await_spending_findUnique_id _ _ H32). simpl.
    by rewrite lookup_delete_eq.
  - intros param found Hlist sp Hin.
    apply listByUser_found in Hlist as (userId & _ & ->).
    apply list_elem_of_fmap in Hin as ([k sp'] & Heq & Hin).
    apply elem_of_rows in Hin as [Hk _].
    unfold select_spending in Heq. simpl in Heq.
    injection Heq as Hid' _. simpl in Hk. subst k.
    rewrite lookup_delete_eq in Hk. discriminate.
Qed.

(** *** Route parameters, reading routes, unanswered requests *)

(** X6. A route parameter that is not numeric is answered 400 "Bad
    Request" by the four routes that take one, and a parameter that
    [parseInt] reads as 0 or cannot read is answered 400 "ID de gasto
    inválido!" by the update and the deletion, whatever the body; the
    store is left as it was. *)
Theorem bad_route_parameter_is_400 (id : string) (body : object) (s : store) :
  (isNaN id = true ->
   getGroup id s = (s, inr (send 400 (text "Bad Request")))
   /\ listByUser id s = (s, inr (send 400 (text "Bad Request")))
   /\ update id body s = (s, inr (send 400 (text "Bad Request")))
   /\ delete_ id s = (s, inr (send 400 (text "Bad Request"))))
  /\
  (isNaN id = false -> parseInt id = Some 0 \/ parseInt id = None ->
   update id body s = (s, inr (send 400 (Obj [("error", text "ID de gasto inválido!")])))
   /\ delete_ id s = (s, inr (send 400 (Obj [("error", text "ID de gasto inválido!")])))).
Proof.
  split.
  - intros H. unfold getGroup, listByUser, update, delete_, try_catch, bind.
    rewrite H. by repeat split.
  - intros H Hid. unfold update, delete_, try_catch, bind. rewrite H.
    destruct Hid as [->| ->]; by split.
Qed.

Lemma preserves_unchanged {A} (I : store -> Prop) (m : M A) :
  (forall s s' r, m s = (s', r) -> s' = s) -> preserves I m.
Proof. intros Hm s s' r HI H. by rewrite (Hm _ _ _ H). Qed.

Ltac enter_query :=
  unfold await, prisma_user_findUnique_email, prisma_user_create,
    prisma_user_update_groupId, prisma_group_findUnique_name,
    prisma_group_findUnique_id, prisma_group_create, prisma_group_findMany,
    prisma_group_findMany_id, prisma_spending_findMany_userId,
    prisma_spending_findUnique_id, prisma_spending_create, prisma_spending_update,
    prisma_spending_delete;
  repeat lazymatch goal with
  | |- preserves _ (bind _ _) => apply preserves_bind; [|intros ?]
  | |- preserves _ (Int _) => apply preserves_validated
  | |- preserves _ (Int_parsed _) => apply preserves_validated
  | |- preserves _ (String_ _) => apply preserves_validated
  | |- preserves _ (Float _) => apply preserves_validated
  | |- preserves _ (DateTime _) => apply preserves_validated
  | |- preserves _ (ret _) => apply preserves_ret
  | |- preserves _ (match ?o with _ => _ end) => destruct o
  end.

(** A query that only reads. *)
Ltac unchanged :=
  enter_query;
  apply preserves_unchanged; intros ? ? ?; unfold failed; cbv zeta;
  repeat match goal with
         | |- context [match ?x with _ => _ end] => destruct x
         end;
  intros [= <- _]; reflexivity.

Ltac preserves_by query :=
  lazymatch goal with
  | |- preserves _ (try_catch _ _) => apply preserves_try_catch; [|intros ?]
  | |- preserves _ (catch_400 _) => apply preserves_ret
  | |- preserves _ (throw_if _ _) => apply preserves_throw_if
  | |- preserves _ (await _) => query
  | |- preserves _ (bcrypt_hashSync ?p _) => unfold bcrypt_hashSync; destruct p
  | |- preserves _ (bcrypt_compareSync ?p _) => unfold bcrypt_compareSync; destruct p
  | |- preserves _ (bind _ _) => apply preserves_bind; [|intros ?]
  | |- preserves _ (ret _) => apply preserves_ret
  | |- preserves _ (throw _) => apply preserves_throw
  | |- preserves _ (if ?c then _ else _) => destruct c
  | |- preserves _ (match ?o with _ => _ end) => destruct o
  end.

Lemma preserved_store {A} (m : M A) (s : store) :
  preserves (fun x => x = s) m -> (m s).1 = s.
Proof. intros H. destruct (m s) as [s' r] eqn:E. by apply (H s s' r). Qed.

(** X7. The login and the three listing routes never write: whatever the
    request and whatever the outcome, the store after the request is the
    store before it. *)
Theorem reading_routes_write_nothing (s : store) :
  (forall now userLogin, (login now userLogin s).1 = s)
  /\ (listGroups s).1 = s
  /\ (forall id, (getGroup id s).1 = s)
  /\ (forall userId, (listByUser userId s).1 = s).
Proof.
  repeat split; intros; apply preserved_store;
    unfold login, listGroups, getGroup, listByUser; cbv zeta;
    repeat preserves_by ltac:(unchanged).
Qed.

Lemma try_catch_answers (m : M response) (s : store) :
  exists r, (try_catch m catch_400 s).2 = inr r.
Proof. unfold try_catch. destruct (m s) as [s' [e|r]]; by eexists. Qed.

(** X8. Every route whose handler is wrapped in [try]/[catch] sends a
    response whatever the request and the store; only the listing of a
    user's spendings, which has no [try], is not covered. *)
Theorem guarded_routes_always_answer (req : request) (s : store) :
  match req with
  | GET_spending _ => True
  | _ => exists r, (handle req s).2 = inr r
  end.
Proof.
  destruct req; try exact I; unfold handle;
    unfold register, login, listGroups, getGroup, createGroup, joinGroup, leaveGroup,
           create, update, delete_;
    apply try_catch_answers.
Qed.

(** X9. The listing of a user's spendings leaves the request without a
    response when the parameter passes the numeric test but [parseInt]
    cannot read it or reads an integer that does not fit the [Int]
    column: the rejection of the query is not caught. *)
Theorem listByUser_unanswered (userId : string) (s : store) :
  isNaN userId = false ->
  parseInt userId = None \/ (exists n, parseInt userId = Some n /\ int32 n = false) ->
  listByUser userId s = (s, inl (Thrown PrismaValidationError)).
Proof.
  intros Hnum Hid. unfold listByUser, bind. rewrite Hnum. simpl.
  unfold await, prisma_spending_findMany_userId, Int_parsed, bind.
  destruct Hid as [->|(n & -> & H32)]; simpl; [reflexivity|]. by rewrite H32.
Qed.

(** *** Invariants of the store

    Every write a route can make is one of nine: a sequence advances, a
    user, a group or a spending is inserted under the next id of its
    sequence, the [groupId] of a user or the columns of a spending are
    overwritten, a spending is deleted.  A property of the store that
    survives each of them survives every request. *)

Section Writes.

Variable I : store -> Prop.

Hypothesis next_user : forall s, I s -> I (next_user_id s).
Hypothesis next_group : forall s, I s -> I (next_group_id s).
Hypothesis next_spending : forall s, I s -> I (next_spending_id s).
Hypothesis new_user : forall s name email password,
  I s -> users s !! (user_seq s + 1) = None ->
  (forall i u, users s !! i = Some u -> u_email u <> email) ->
  I (set_users (insert (user_seq s + 1)
                  {| u_name := name; u_email := email; u_password := password;
                     u_groupId := None |}) (next_user_id s)).
Hypothesis moved_user : forall s i u g,
  I s -> users s !! i = Some u ->
  (forall z, g = Some z -> is_Some (groups s !! z)) ->
  I (set_users (insert i {| u_name := u_name u; u_email := u_email u;
                            u_password := u_password u; u_groupId := g |}) s).
Hypothesis new_group : forall s name password,
  I s -> groups s !! (group_seq s + 1) = None ->
  (forall i g, groups s !! i = Some g -> g_name g <> name) ->
  I (set_groups (insert (group_seq s + 1) {| g_name := name; g_password := password |})
       (next_group_id s)).
Hypothesis new_spending : forall s row,
  I s -> spendings s !! (spending_seq s + 1) = None ->
  is_Some (users s !! sp_userId row) ->
  I (set_spendings (insert (spending_seq s + 1) row) (next_spending_id s)).
Hypothesis changed_spending : forall s i row,
  I s -> is_Some (spendings s !! i) -> is_Some (users s !! sp_userId row) ->
  I (set_spendings (insert i row) s).
Hypothesis deleted_spending : forall s i,
  I s -> is_Some (spendings s !! i) -> I (set_spendings (delete i) s).

Lemma user_create_keeps (name email : scalar) (password : string) :
  preserves I (await (prisma_user_create name email password)).
Proof.
  enter_query. intros s s' r HI. cbv zeta. simpl.
  destruct (users s !! (user_seq s + 1)) eqn:Hid; simpl;
    [intros [= <- <-]; by apply next_user|].
  destruct (first_row _ (users s)) eqn:Hfree; simpl;
    intros [= <- <-]; [by apply next_user|].
  apply new_user; [done|done|].
  intros i u Hi He. rewrite first_row_None in Hfree.
  specialize (Hfree _ _ Hi). apply not_true_iff_false in Hfree.
  apply Hfree. by apply email_is_true.
Qed.

Lemma user_update_keeps (id groupId : scalar) :
  preserves I (await (prisma_user_update_groupId id groupId)).
Proof.
  enter_query; intros s s' r HI;
    (destruct (users s !! _) as [u|] eqn:Hu; [|by intros [= <- <-]]); cbv zeta;
    (destruct (default _ _) as [z|] eqn:Hg;
       [destruct (groups s !! z) eqn:Hz; simpl; intros [= <- <-]; [|done]|
        intros [= <- <-]]);
    apply moved_user; try done; intros z' [= <-]; by eexists.
Qed.

Lemma group_create_keeps (name : scalar) (password : string) :
  preserves I (await (prisma_group_create name password)).
Proof.
  enter_query. intros s s' r HI. cbv zeta. simpl.
  destruct (groups s !! (group_seq s + 1)) eqn:Hid; simpl;
    [intros [= <- <-]; by apply next_group|].
  destruct (first_row _ (groups s)) eqn:Hfree; simpl;
    intros [= <- <-]; [by apply next_group|].
  apply new_group; [done|done|].
  intros i g Hi Hn. rewrite first_row_None in Hfree.
  specialize (Hfree _ _ Hi). apply not_true_iff_false in Hfree.
  apply Hfree. by apply name_is_true.
Qed.

Lemma spending_create_keeps (name : scalar) (day : Z) (value userId : scalar) :
  preserves I (await (prisma_spending_create name day value userId)).
Proof.
  enter_query. intros s s' r HI. cbv zeta. simpl.
  destruct (spendings s !! (spending_seq s + 1)) eqn:Hid; simpl;
    [intros [= <- <-]; by apply next_spending|].
  destruct (users s !! _) eqn:Hu; simpl;
    intros [= <- <-]; [|by apply next_spending].
  apply new_spending; [done|done|]. simpl. by eexists.
Qed.

Lemma spending_update_keeps (id : option Z) (name : scalar) (day : Z)
    (value userId : scalar) :
  preserves I (await (prisma_spending_update id name day value userId)).
Proof.
  enter_query; intros s s' r HI;
    (destruct (spendings s !! _) as [old|] eqn:Hold; [|by intros [= <- <-]]);
    cbv zeta; (destruct (users s !! _) eqn:Hu; simpl; intros [= <- <-]; [|done]);
    apply changed_spending; try done; simpl; by eexists.
Qed.

Lemma spending_delete_keeps (id : option Z) :
  preserves I (await (prisma_spending_delete id)).
Proof.
  enter_query. intros s s' r HI.
  destruct (spendings s !! _) as [old|] eqn:Hold; intros [= <- <-]; [|done].
  apply deleted_spending; [done|by eexists].
Qed.

Lemma every_route_keeps (req : request) : preserves I (handle req).
Proof.
  destruct req; simpl;
    unfold register, login, listGroups, getGroup, createGroup, joinGroup, leaveGroup,
           listByUser, create, update, delete_;
    cbv zeta;
    repeat preserves_by
      ltac:(first [ apply user_create_keeps | apply user_update_keeps
                  | apply group_create_keeps | apply spending_create_keeps
                  | apply spending_update_keeps | apply spending_delete_keeps
                  | unchanged ]).
Qed.

End Writes.

Lemma insert_keeps_names_unique (s : store) (i : Z) (row : Group) :
  names_unique s ->
  (forall j g, groups s !! j = Some g -> g_name g <> g_name row) ->
  names_unique (set_groups (insert i row) s).
Proof.
  intros HI Hrow j1 j2 g1 g2. simpl. rewrite !lookup_insert_Some.
  intros [[<- <-]|[? H1]] [[<- <-]|[? H2]] He; try done.
  - by destruct (Hrow _ _ H2).
  - by destruct (Hrow _ _ H1).
  - by apply (HI _ _ _ _ H1 H2).
Qed.

(** X10. The two unique indexes are invariants of every route: if no
    two users share an email and no two groups share a name before a
    request, the same holds after it, whatever the request and whether
    it succeeds or fails. *)
Theorem unique_indexes_kept (req : request) (s s' : store) (r : error + response) :
  emails_unique s -> names_unique s -> handle req s = (s', r) ->
  emails_unique s' /\ names_unique s'.
Proof.
  intros He Hn H.
  apply (every_route_keeps (fun x => emails_unique x /\ names_unique x))
    with (req := req) (s := s) (r := r); try done; clear.
  - intros s name email password [He Hn] Hid Hfree. split; [|exact Hn].
    apply (insert_keeps_emails_unique (next_user_id s)); [exact He|].
    intros j v Hj Hv. destruct (Hfree j v Hj Hv).
  - intros s i u g [He Hn] Hu _. split; [|exact Hn].
    apply insert_keeps_emails_unique; [exact He|].
    intros j v Hj Hv. by apply (He _ _ _ _ Hj Hu).
  - intros s name password [He Hn] Hid Hfree. split; [exact He|].
    by apply (insert_keeps_names_unique (next_group_id s)).
Qed.

(** X11. Referential integrity is an invariant of every route: if every
    [groupId] of a user names a group and every [userId] of a spending
    names a user before a request, the same holds after it. *)
Theorem references_kept (req : request) (s s' : store) (r : error + response) :
  references_hold s -> handle req s = (s', r) -> references_hold s'.
Proof.
  intros HI H.
  apply (every_route_keeps references_hold) with (req := req) (s := s) (r := r);
    try done; clear; unfold references_hold; simpl.
  - intros s name email password [Hg Hu] Hid _. split.
    + intros i u g. rewrite lookup_insert_Some.
      intros [[_ <-]|[_ Hi]]; [done|by apply (Hg i)].
    + intros i sp Hsp. rewrite lookup_insert_is_Some'. right. by apply (Hu i).
  - intros s i u g [Hg Hu] Hi Hnew. split.
    + intros j v z. rewrite lookup_insert_Some.
      intros [[_ <-]|[_ Hj]]; [by apply Hnew|by apply (Hg j)].
    + intros j sp Hsp. rewrite lookup_insert_is_Some'. right. by apply (Hu j).
  - intros s name password [Hg Hu] _ _. split; [|exact Hu].
    intros i u g Hi Hgr. rewrite lookup_insert_is_Some'. right. by apply (Hg i u).
  - intros s row [Hg Hu] _ Hrow. split; [exact Hg|].
    intros i sp. rewrite lookup_insert_Some.
    intros [[_ <-]|[_ Hi]]; [done|by apply (Hu i)].
  - intros s i row [Hg Hu] _ Hrow. split; [exact Hg|].
    intros j sp. rewrite lookup_insert_Some.
    intros [[_ <-]|[_ Hj]]; [done|by apply (Hu j)].
  - intros s i [Hg Hu] _. split; [exact Hg|].
    intros j sp. rewrite lookup_delete_Some. intros [_ Hj]. by apply (Hu j).
Qed.

Ltac ids_solver :=
  repeat split; try done; try lia; intros;
  repeat match goal with
         | H : is_Some (<[_:=_]> _ !! _) |- _ =>
           apply lookup_insert_is_Some' in H as [<-|H]
         | H : is_Some (delete _ _ !! _) |- _ =>
           apply lookup_delete_is_Some in H as [_ H]
         end;
  repeat match goal with
         | Hb : forall i, is_Some (?m !! i) -> _, H : is_Some (?m !! _) |- _ =>
           apply Hb in H
         end;
  lia.

(** X12. Ids come from the sequences only: if every id of every table
    is positive and at most the last value of the table's sequence
    before a request, the same holds after it; so the id a creation
    takes next is never the id of a row that exists. *)
Theorem ids_issued_kept (req : request) (s s' : store) (r : error + response) :
  ids_issued s -> handle req s = (s', r) ->
  ids_issued s'
  /\ users s' !! (user_seq s' + 1) = None
  /\ groups s' !! (group_seq s' + 1) = None
  /\ spendings s' !! (spending_seq s' + 1) = None.
Proof.
  intros HI H.
  assert (forall x, ids_issued x ->
            users x !! (user_seq x + 1) = None
            /\ groups x !! (group_seq x + 1) = None
            /\ spendings x !! (spending_seq x + 1) = None) as Hfree.
  { intros x ([_ Hu] & [_ Hg] & [_ Hs]).
    repeat split; apply eq_None_not_Some; intros Hsome;
      [apply Hu in Hsome|apply Hg in Hsome|apply Hs in Hsome]; lia. }
  assert (ids_issued s') as HI'; [|split; [exact HI'|by apply Hfree]].
  apply (every_route_keeps ids_issued) with (req := req) (s := s) (r := r);
    try done; clear; unfold ids_issued; simpl.
  - intros s ([H0 Hu] & [H1 Hg] & [H2 Hs]). ids_solver.
  - intros s ([H0 Hu] & [H1 Hg] & [H2 Hs]). ids_solver.
  - intros s ([H0 Hu] & [H1 Hg] & [H2 Hs]). ids_solver.
  - intros s name email password ([H0 Hu] & [H1 Hg] & [H2 Hs]) _ _. ids_solver.
  - intros s i u g ([H0 Hu] & [H1 Hg] & [H2 Hs]) Hi _.
    assert (0 < i <= user_seq s) by (apply Hu; by eexists). ids_solver.
  - intros s name password ([H0 Hu] & [H1 Hg] & [H2 Hs]) _ _. ids_solver.
  - intros s row ([H0 Hu] & [H1 Hg] & [H2 Hs]) _ _. ids_solver.
  - intros s i row ([H0 Hu] & [H1 Hg] & [H2 Hs]) Hi _.
    assert (0 < i <= spending_seq s) by by apply Hs. ids_solver.
  - intros s i ([H0 Hu] & [H1 Hg] & [H2 Hs]) _. ids_solver.
Qed.

(** *** What a success tells *)

Lemma create_success (newSpending : object) (s s' : store) (r : response) :
  create newSpending s = (s', inr r) -> status r = 201 ->
  exists name day value userId,
    newSpending.["name"] = Str name
    /\ new_Date newSpending.["day"] = Some day
    /\ newSpending.["value"] = Num value
    /\ as_Int newSpending.["userId"] = Some userId
    /\ spendings s !! (spending_seq s + 1) = None
    /\ is_Some (users s !! userId)
    /\ s' = set_spendings (insert (spending_seq s + 1)
                             {| sp_name := name; sp_day := day; sp_value := value;
                                sp_userId := userId |}) (next_spending_id s)
    /\ r = send 201 (Obj [("message", text "Gasto cadastrado com sucesso!");
                          ("data", Obj [("id", int (spending_seq s + 1))])]).
Proof.
  intros H Hst. unfold create, try_catch, bind, throw_if in H.
  destruct (falsy_or_zero newSpending.["userId"]); [refused H Hst|].
  destruct (falsy_or_empty newSpending.["day"]); [refused H Hst|].
  destruct (falsy_or_zero newSpending.["value"]); [refused H Hst|].
  simpl in H.
  destruct (new_Date newSpending.["day"]) as [day|] eqn:Hday; [|refused H Hst].
  unfold await, prisma_spending_create, bind, String_, DateTime, Float, Int,
    validated in H.
  destruct (newSpending.["name"]) as [| | | |name] eqn:Hname; try refused H Hst.
  destruct (DateTime_fits day) eqn:Hfits; [|refused H Hst].
  destruct (newSpending.["value"]) as [| | |value|] eqn:Hvalue; try refused H Hst.
  destruct (as_Int newSpending.["userId"]) as [userId|] eqn:Huser; [|refused H Hst].
  simpl in H.
  destruct (spendings s !! (spending_seq s + 1)) eqn:Hid; [refused H Hst|].
  destruct (users s !! userId) eqn:Hu; [|refused H Hst].
  simpl in H. injection H as <- <-.
  exists name, day, value, userId. repeat split; try done; by eexists.
Qed.

Lemma delete_success (id : string) (s s' : store) (r : response) :
  delete_ id s = (s', inr r) -> status r = 204 ->
  exists spendingID,
    parseInt id = Some spendingID /\ isNaN id = false
    /\ spendingID <> 0 /\ int32 spendingID = true
    /\ is_Some (spendings s !! spendingID)
    /\ s' = set_spendings (delete spendingID) s.
Proof.
  intros H Hst. unfold delete_, try_catch, bind in H.
  destruct (isNaN id) eqn:Hnum; simpl in H; [refused H Hst|].
  destruct (parseInt id) as [n|] eqn:Hid; simpl in H; [|refused H Hst].
  destruct (Z.eqb_spec n 0) as [|Hn0]; simpl in H; [refused H Hst|].
  unfold await, prisma_spending_findUnique_id, prisma_spending_delete,
    Int_parsed, bind in H. simpl in H.
  destruct (int32 n) eqn:H32; simpl in H; [|refused H Hst].
  destruct (spendings s !! n) as [old|] eqn:Hold; simpl in H; [|refused H Hst].
  rewrite Hold in H. simpl in H. injection H as <- <-.
  exists n. repeat split; try done; by eexists.
Qed.

(** X13. The id of a deleted spending is not handed out again: in a
    store whose ids all come from the sequences, a creation that follows
    a deletion takes an id above the deleted one, and the deleted id
    stays absent. *)
Theorem deleted_id_not_reused (id : string) (newSpending : object)
    (s s1 s2 : store) (r1 r2 : response) :
  ids_issued s ->
  delete_ id s = (s1, inr r1) -> status r1 = 204 ->
  create newSpending s1 = (s2, inr r2) -> status r2 = 201 ->
  exists deleted created,
    parseInt id = Some deleted
    /\ r2 = send 201 (Obj [("message", text "Gasto cadastrado com sucesso!");
                           ("data", Obj [("id", int created)])])
    /\ deleted < created
    /\ spendings s2 !! deleted = None
    /\ is_Some (spendings s2 !! created).
Proof.
  intros (_ & _ & [_ Hs]) Hdel Hst1 Hnew Hst2.
  apply delete_success in Hdel as (n & Hid & _ & _ & _ & Hn & ->); [|done].
  apply create_success in Hnew as (name & day & value & u & _ & _ & _ & _ & _ & _
                                   & -> & ->); [|done].
  apply Hs in Hn. simpl.
  exists n, (spending_seq s + 1). repeat split; try done; try lia.
  - rewrite lookup_insert_ne by lia. apply lookup_delete_eq.
  - rewrite lookup_insert_eq. by eexists.
Qed.

Lemma register_success (salt : string) (newUser : object) (s s' : store)
    (r : response) :
  register salt newUser s = (s', inr r) -> status r = 201 ->
  exists name email password,
    newUser.["name"] = Str name /\ newUser.["email"] = Str email
    /\ newUser.["password"] = Str password
    /\ email <> "" /\ password <> ""
    /\ users s !! (user_seq s + 1) = None
    /\ (forall i u, users s !! i = Some u -> u_email u <> email)
    /\ s' = set_users (insert (user_seq s + 1)
                         {| u_name := name; u_email := email;
                            u_password := hashSync password salt;
                            u_groupId := None |}) (next_user_id s)
    /\ r = send 201 (Obj [("message", text "Usuário cadastrado com sucesso!");
                          ("data", Obj [("id", int (user_seq s + 1))])]).
Proof.
  intros H Hst. unfold register, try_catch, bind, throw_if in H.
  destruct (falsy_or_empty newUser.["name"]); [refused H Hst|].
  destruct (falsy_or_empty newUser.["email"]) eqn:He0; [refused H Hst|].
  destruct (falsy_or_empty newUser.["password"]) eqn:Hp0; [refused H Hst|].
  simpl in H. unfold bcrypt_hashSync in H.
  destruct (newUser.["password"]) as [| | | |password] eqn:Hp; try refused H Hst.
  unfold await, prisma_user_create, bind, String_, validated in H.
  destruct (newUser.["name"]) as [| | | |name] eqn:Hn; try refused H Hst.
  destruct (newUser.["email"]) as [| | | |email] eqn:He; try refused H Hst.
  simpl in H.
  destruct (users s !! (user_seq s + 1)) eqn:Hid; [refused H Hst|].
  destruct (first_row (email_is email) (users s)) eqn:Hfree; [refused H Hst|].
  simpl in H. injection H as <- <-.
  exists name, email, password. repeat split; try done.
  - intros ->. discriminate.
  - intros ->. discriminate.
  - intros i u Hi Hu. rewrite first_row_None in Hfree.
    apply (email_is_true email i u) in Hu. rewrite (Hfree _ _ Hi) in Hu. discriminate.
Qed.

Lemma inserted_user_is_found (s : store) (id : Z) (row : User) :
  emails_unique s ->
  (forall i u, users s !! i = Some u -> u_email u <> u_email row) ->
  first_row (email_is (u_email row)) (<[id := row]> (users s)) = Some (id, row).
Proof.
  intros Huniq Hfree.
  change (first_row (email_is (u_email row)) (users (set_users (insert id row) s))
          = Some (id, row)).
  apply the_user_with_email.
  - apply insert_keeps_emails_unique; [exact Huniq|].
    intros j v Hj Hv. destruct (Hfree j v Hj Hv).
  - apply lookup_insert_eq.
  - reflexivity.
Qed.

(** X14. Registration followed by login: after a registration answered
    201, a login with the same email and password, on the store the
    registration left, is answered 200 with the id the registration
    returned, provided the password verifies against its own hash and
    the signer yields a token. *)
Theorem register_then_login (salt : string) (newUser userLogin : object)
    (s s' : store) (r : response) (now : Z) :
  emails_unique s ->
  register salt newUser s = (s', inr r) -> status r = 201 ->
  userLogin.["email"] = newUser.["email"] ->
  userLogin.["password"] = newUser.["password"] ->
  exists id email password,
    newUser.["email"] = Str email /\ newUser.["password"] = Str password
    /\ r = send 201 (Obj [("message", text "Usuário cadastrado com sucesso!");
                          ("data", Obj [("id", int id)])])
    /\ forall token,
         compareSync password (hashSync password salt) = true ->
         jwt_sign id email JWTsecret "15d" now = Some token ->
         login now userLogin s'
         = (s', inr (send 200 (Obj [("message", text "Login efetuado com sucesso!");
                                    ("data", Obj [("userId", int id);
                                                  ("token", text token)])]))).
Proof.
  intros Huniq H Hst Hemail Hpassword.
  apply register_success in H
    as (name & email & password & Hn & He & Hp & He0 & Hp0 & Hid & Hfree & -> & ->);
    [|done].
  exists (user_seq s + 1), email, password. repeat split; try done.
  intros token Hok Htok.
  pose proof (inserted_user_is_found s (user_seq s + 1)
                {| u_name := name; u_email := email;
                   u_password := hashSync password salt; u_groupId := None |}
                Huniq Hfree) as Hfind. simpl in Hfind.
  unfold login, try_catch, bind. rewrite Hemail, Hpassword, He, Hp.
  rewrite (falsy_or_empty_text _ He0), (falsy_or_empty_text _ Hp0). simpl.
  rewrite Hfind. simpl. rewrite Hok. simpl. by rewrite Htok.
Qed.

(** X15. An email that is already registered is never registered again:
    whatever the rest of the body and the salt, the request is answered
    400 and the table of users is left as it was. *)
Theorem register_taken_email (salt : string) (newUser : object) (s : store)
    (email : string) :
  newUser.["email"] = Str email ->
  (exists i u, users s !! i = Some u /\ u_email u = email) ->
  exists s' r,
    register salt newUser s = (s', inr r) /\ status r = 400 /\ users s' = users s.
Proof.
  intros He Hdup. unfold register, try_catch, bind, throw_if. rewrite He.
  destruct (falsy_or_empty newUser.["name"]); [by eexists _, _|].
  destruct (falsy_or_empty (Str email)); [by eexists _, _|].
  destruct (falsy_or_empty newUser.["password"]); [by eexists _, _|].
  simpl. unfold bcrypt_hashSync.
  destruct (newUser.["password"]) as [| | | |password]; try by eexists _, _.
  unfold await, prisma_user_create, bind, String_, validated.
  destruct (newUser.["name"]) as [| | | |name]; try by eexists _, _.
  simpl. rewrite (some_user_with_email _ _ Hdup), andb_false_r.
  by eexists _, _.
Qed.

(** *** Groups: names, membership, passwords *)

(** X16. A creation that reaches the insert takes the name, whatever it
    answers: when the name and the next id are free the group row is
    written (also in the case answered 400 because no user has the new
    id), and every later creation under the same name is refused with
    "Já existe um grupo com esse nome!" and writes nothing. *)
Theorem createGroup_attempt_takes_name (salt salt' : string) (newGroup again : object)
    (s : store) (userId userId' : Z) (name password password' : string) :
  newGroup.["userId"] = Num (inject_Z userId) -> userId <> 0 ->
  newGroup.["name"] = Str name -> name <> "" ->
  newGroup.["password"] = Str password -> password <> "" ->
  (forall k g, groups s !! k = Some g -> g_name g <> name) ->
  groups s !! (group_seq s + 1) = None -> int32 (group_seq s + 1) = true ->
  again.["userId"] = Num (inject_Z userId') -> userId' <> 0 ->
  again.["name"] = Str name ->
  again.["password"] = Str password' -> password' <> "" ->
  let s1 := (createGroup salt newGroup s).1 in
  groups s1 !! (group_seq s + 1)
  = Some {| g_name := name; g_password := hashSync password salt |}
  /\ createGroup salt' again s1
     = (s1, inr (send 400 (Obj [("error", text "Já existe um grupo com esse nome!")]))).
Proof.
  intros Hu Hu0 Hn Hn0 Hp Hp0 Hfree Hid H32 Hu' Hu0' Hn' Hp' Hp0' s1.
  assert (groups s1 !! (group_seq s + 1)
          = Some {| g_name := name; g_password := hashSync password salt |}) as Hrow.
  { unfold s1. destruct (users s !! (group_seq s + 1)) as [v|] eqn:Hv.
    - rewrite (createGroup_member salt newGroup s userId name password
                 (conj Hu Hu0) (conj Hn Hn0) (conj Hp Hp0) Hfree Hid H32 v Hv).
      apply lookup_insert_eq.
    - rewrite (createGroup_no_member salt newGroup s userId name password
                 (conj Hu Hu0) (conj Hn Hn0) (conj Hp Hp0) Hfree Hid H32 Hv).
      apply lookup_insert_eq. }
  split; [exact Hrow|].
  apply (createGroup_duplicate_name salt' again s1 userId' name password'
           (conj Hu' Hu0') (conj Hn' Hn0) (conj Hp' Hp0')).
  by eexists _, _.
Qed.

(** X17. The creation of a group does not look at who asks: two requests
    that agree on [name] and [password] and both carry some [userId]
    that passes the presence check have the same response and leave the
    same store. *)
Theorem createGroup_ignores_userId (salt : string) (newGroup other : object)
    (s : store) :
  falsy_or_zero newGroup.["userId"] = false ->
  falsy_or_zero other.["userId"] = false ->
  other.["name"] = newGroup.["name"] ->
  other.["password"] = newGroup.["password"] ->
  createGroup salt other s = createGroup salt newGroup s.
Proof.
  intros H1 H2 Hn Hp. unfold createGroup. by rewrite H1, H2, Hn, Hp.
Qed.

(** X18. The password gate of a join, for a request with all fields
    present and an existing group: a password that does not verify
    against the group's hash is refused with 400 "Senha incorreta!" and
    nothing is written; one that verifies sets the [groupId] of the
    existing user named by [userId] to exactly that group and answers
    201 with the user's id. *)
Theorem joinGroup_password_gate (groupJoin : object) (s : store)
    (userId groupId : Z) (password : string) (g : Group) :
  groupJoin.["userId"] = Num (inject_Z userId) -> userId <> 0 ->
  int32 userId = true ->
  groupJoin.["groupId"] = Num (inject_Z groupId) -> groupId <> 0 ->
  int32 groupId = true ->
  groupJoin.["password"] = Str password -> password <> "" ->
  groups s !! groupId = Some g ->
  (compareSync password (g_password g) = false ->
   joinGroup groupJoin s = (s, inr (send 400 (Obj [("error", text "Senha incorreta!")]))))
  /\
  (forall u, compareSync password (g_password g) = true ->
   users s !! userId = Some u ->
   joinGroup groupJoin s
   = (set_users (insert userId {| u_name := u_name u; u_email := u_email u;
                                  u_password := u_password u;
                                  u_groupId := Some groupId |}) s,
      inr (send 201 (Obj [("message", text "Usuário adicionado com sucesso!");
                          ("data", Obj [("id", int userId)])])))).
Proof.
  intros Hu Hu0 Hu32 Hg Hg0 Hg32 Hp Hp0 Hgr. split.
  - intros Hbad.
    by apply (joinGroup_wrong_password groupJoin s userId groupId password
                (conj Hu Hu0) (conj Hg (conj Hg0 Hg32)) (conj Hp Hp0) g).
  - intros u Hok Hus.
    by apply (joinGroup_joins groupJoin s userId groupId password
                (conj Hu Hu0) (conj Hg (conj Hg0 Hg32)) (conj Hp Hp0) g u).
Qed.

Lemma as_Int_Num (v : scalar) (z : Z) : as_Int v = Some z -> exists q, v = Num q.
Proof. destruct v; try discriminate. by eexists. Qed.

(** X19. A join never changes the store without the password having
    verified: every response is either the 201 of a request whose
    password is a string that verifies against the hash of the existing
    group named by [groupId], with the [groupId] of the existing user
    named by [userId] set to it (both ids as the client reads them, a
    number standing for its integer part), or a 400 with the store
    untouched. *)
Theorem joinGroup_verifies (groupJoin : object) (s s' : store) (r : response) :
  joinGroup groupJoin s = (s', inr r) ->
  (exists userId groupId password g u,
     as_Int groupJoin.["userId"] = Some userId
     /\ as_Int groupJoin.["groupId"] = Some groupId
     /\ groupJoin.["password"] = Str password
     /\ groups s !! groupId = Some g
     /\ compareSync password (g_password g) = true
     /\ users s !! userId = Some u
     /\ s' = set_users (insert userId {| u_name := u_name u; u_email := u_email u;
                                         u_password := u_password u;
                                         u_groupId := Some groupId |}) s
     /\ r = send 201 (Obj [("message", text "Usuário adicionado com sucesso!");
                           ("data", Obj [("id", int userId)])]))
  \/ (status r = 400 /\ s' = s).
Proof.
  intros H. unfold joinGroup, try_catch, bind, throw_if in H.
  destruct (falsy_or_zero groupJoin.["userId"]); [right; by injection H as <- <-|].
  destruct (falsy_or_zero groupJoin.["groupId"]); [right; by injection H as <- <-|].
  destruct (falsy_or_empty groupJoin.["password"]); [right; by injection H as <- <-|].
  simpl in H.
  unfold await, prisma_group_findUnique_id, prisma_user_update_groupId, bind, Int,
    validated, bcrypt_compareSync in H.
  destruct (as_Int groupJoin.["groupId"]) as [groupId|] eqn:Hg;
    [|right; by injection H as <- <-].
  simpl in H.
  destruct (groups s !! groupId) as [g|] eqn:Hgr; simpl in H;
    [|right; by injection H as <- <-].
  destruct (groupJoin.["password"]) as [| | | |password] eqn:Hp;
    try (right; by injection H as <- <-).
  simpl in H.
  destruct (compareSync password (g_password g)) eqn:Hok;
    [|right; by injection H as <- <-].
  destruct (as_Int groupJoin.["userId"]) as [userId|] eqn:Hu;
    [|right; by injection H as <- <-].
  simpl in H.
  destruct (as_Int_Num _ _ Hg) as [q Hq]. rewrite Hq in H. simpl in H.
  destruct (users s !! userId) as [u|] eqn:Hus; [|right; by injection H as <- <-].
  simpl in H. rewrite Hgr in H. simpl in H. injection H as <- <-.
  left. exists userId, groupId, password, g, u. by repeat split.
Qed.

(** X20. A login never issues a token without the password having
    verified: a 200 is only given when the email and password are
    strings, a user with that email exists, and the password verifies
    against that user's stored hash; the token is the one signed over
    that user's id and email. *)
Theorem login_verifies (now : Z) (userLogin : object) (s s' : store) (r : response) :
  login now userLogin s = (s', inr r) -> status r = 200 ->
  exists id u email password token,
    userLogin.["email"] = Str email /\ userLogin.["password"] = Str password
    /\ users s !! id = Some u /\ u_email u = email
    /\ compareSync password (u_password u) = true
    /\ jwt_sign id email JWTsecret "15d" now = Some token
    /\ r = send 200 (Obj [("message", text "Login efetuado com sucesso!");
                          ("data", Obj [("userId", int id); ("token", text token)])]).
Proof.
  intros H Hst. unfold login, try_catch, bind, throw_if in H.
  destruct (falsy_or_empty userLogin.["email"] || falsy_or_empty userLogin.["password"]);
    [refused H Hst|].
  simpl in H.
  unfold await, prisma_user_findUnique_email, bind, String_, validated,
    bcrypt_compareSync in H.
  destruct (userLogin.["email"]) as [| | | |email] eqn:He; try refused H Hst.
  simpl in H.
  destruct (first_row (email_is email) (users s)) as [[id u]|] eqn:Hfind;
    [|refused H Hst].
  apply first_row_Some in Hfind as [Hid Hemail]. apply email_is_true in Hemail.
  destruct (userLogin.["password"]) as [| | | |password] eqn:Hp; try refused H Hst.
  simpl in H.
  destruct (compareSync password (u_password u)) eqn:Hok; [|refused H Hst].
  simpl in H. rewrite Hemail in H.
  destruct (jwt_sign id email JWTsecret "15d" now) as [token|] eqn:Htok;
    [|refused H Hst].
  simpl in H. injection H as <- <-.
  exists id, u, email, password, token. by repeat split.
Qed.

Lemma set_users_twice (f g : gmap Z User -> gmap Z User) (s : store) :
  set_users f (set_users g s) = set_users (fun m => f (g m)) s.
Proof. reflexivity. Qed.

Lemma set_users_same (s : store) (i : Z) (u : User) :
  users s !! i = Some u -> set_users (insert i u) s = s.
Proof.
  intros H. destruct s as [us gs sps a b c]. unfold set_users. simpl in *.
  by rewrite (insert_id us i u H).
Qed.

(** X21. Joining and then leaving, with the same body: the leave that
    follows a successful join clears the [groupId] again, so the user
    ends with no group, and when the user had no group before the join
    the store is back to what it was. *)
Theorem join_then_leave (groupJoin : object) (s : store)
    (userId groupId : Z) (password : string) (g : Group) (u : User) :
  groupJoin.["userId"] = Num (inject_Z userId) -> userId <> 0 ->
  int32 userId = true ->
  groupJoin.["groupId"] = Num (inject_Z groupId) -> groupId <> 0 ->
  int32 groupId = true ->
  groupJoin.["password"] = Str password -> password <> "" ->
  groups s !! groupId = Some g -> compareSync password (g_password g) = true ->
  users s !! userId = Some u ->
  let s1 := (joinGroup groupJoin s).1 in
  leaveGroup groupJoin s1
  = (set_users (insert userId {| u_name := u_name u; u_email := u_email u;
                                 u_password := u_password u; u_groupId := None |}) s,
     inr (send 201 (Obj [("message", text "Usuário removido com sucesso!");
                         ("data", Obj [("id", int userId)])])))
  /\ (u_groupId u = None -> (leaveGroup groupJoin s1).1 = s).
Proof.
  intros Hu Hu0 Hu32 Hg Hg0 Hg32 Hp Hp0 Hgr Hok Hus s1.
  assert (leaveGroup groupJoin s1
          = (set_users (insert userId {| u_name := u_name u; u_email := u_email u;
                                         u_password := u_password u;
                                         u_groupId := None |}) s,
             inr (send 201 (Obj [("message", text "Usuário removido com sucesso!");
                                 ("data", Obj [("id", int userId)])])))) as Hleave.
  { unfold s1.
    rewrite (joinGroup_joins groupJoin s userId groupId password
               (conj Hu Hu0) (conj Hg (conj Hg0 Hg32)) (conj Hp Hp0) g u Hgr Hok
               Hu32 Hus). simpl.
    erewrite (leaveGroup_existing groupJoin _ userId groupId _ g Hu Hu0 Hg Hg0
                Hu32 Hg32); [|exact Hgr|apply lookup_insert_eq].
    simpl. rewrite set_users_twice. unfold set_users. simpl.
    by rewrite insert_insert_eq. }
  split; [exact Hleave|].
  intros Hnone. rewrite Hleave. simpl. apply set_users_same.
  rewrite Hus. destruct u. simpl in Hnone. by rewrite Hnone.
Qed.


(** *** Reading a group back *)

Lemma owned_by_true (n k : Z) (sp : Spending) :
  owned_by n k sp = true <-> sp_userId sp = n.
Proof. unfold owned_by. by destruct (Z.eqb_spec (sp_userId sp) n). Qed.

Lemma member_of_true (n k : Z) (u : User) :
  member_of n k u = true <-> u_groupId u = Some n.
Proof. unfold member_of. apply bool_decide_eq_true. Qed.

Lemma Forall2_fmap_self {A B} (R : A -> B -> Prop) (f : A -> B) (l : list A) :
  (forall x, R x (f x)) -> Forall2 R l (f <$> l).
Proof. intros H. induction l as [|x l IH]; csimpl; by constructor. Qed.

Lemma select_user_shown (s : store) (r : Z * User) : shown_user s r (select_user s r).
Proof.
  exists (rows (owned_by r.1) (spendings s)). split; [|reflexivity].
  apply rows_lists. intros k sp. apply owned_by_true.
Qed.

Lemma select_group_shown (s : store) (r : Z * Group) :
  shown_group s r (select_group s r).
Proof.
  exists (rows (member_of r.1) (users s)),
         (select_user s <$> rows (member_of r.1) (users s)).
  split; [|split; [|reflexivity]].
  - apply rows_lists. intros k u. apply member_of_true.
  - apply Forall2_fmap_self. apply select_user_shown.
Qed.

Lemma filter_by_key {A} (n : Z) (a : A) (l : list (Z * A)) :
  NoDup l.*1 -> (n, a) ∈ l ->
  List.filter (fun r => Z.eqb r.1 n) l = [(n, a)].
Proof.
  induction l as [|[k b] l IH]; intros Hnd Hin; [by apply elem_of_nil in Hin|].
  apply NoDup_cons in Hnd as [Hk Hnd]. simpl.
  apply elem_of_cons in Hin as [[= <- <-]|Hin].
  - rewrite Z.eqb_refl. f_equal.
    clear IH Hnd. induction l as [|[k' b'] l IH]; [done|]. simpl.
    apply not_elem_of_cons in Hk as [Hne Hk]. simpl in Hne.
    destruct (Z.eqb_spec k' n); [congruence|by apply IH].
  - destruct (Z.eqb_spec k n) as [->|]; [|by apply IH].
    destruct Hk. by apply (list_elem_of_fmap_2 fst l (n, a)).
Qed.

Lemma rows_by_key {A} (n : Z) (a : A) (table : gmap Z A) :
  table !! n = Some a -> rows (fun k _ => Z.eqb k n) table = [(n, a)].
Proof.
  intros H. unfold rows. apply filter_by_key.
  - apply NoDup_fst_all_rows.
  - by apply elem_of_all_rows.
Qed.

Lemma getGroup_found (id : string) (s : store) (n : Z) (g : Group) :
  isNaN id = false -> parseInt id = Some n -> int32 n = true ->
  groups s !! n = Some g ->
  getGroup id s
  = (s, inr (send 200 (Obj [("message", text "Grupo obtido com sucesso!");
                            ("data", Arr [select_group s (n, g)])]))).
Proof.
  intros Hnum Hn H32 Hg. unfold getGroup, try_catch, bind.
  rewrite Hnum, Hn. simpl. rewrite (await_group_findMany_id _ _ H32).
  by rewrite (rows_by_key n g _ Hg).
Qed.

(** X23. For the id of an existing group the answer is 200 with a list
    of exactly one element, which shows that group: its id and name,
    and as [users] the users whose [groupId] is that id, each once and
    each with id, name, email and, as [spendings], the spendings of that
    user, each once.  The order of the users and of the spendings is the
    one the database returns and is not determined. *)
Theorem getGroup_existing (id : string) (s : store) (n : Z) (g : Group) :
  isNaN id = false -> parseInt id = Some n -> int32 n = true ->
  groups s !! n = Some g ->
  exists v,
    getGroup id s
    = (s, inr (send 200 (Obj [("message", text "Grupo obtido com sucesso!");
                              ("data", Arr [v])])))
    /\ shown_group s (n, g) v.
Proof.
  intros Hnum Hn H32 Hg. exists (select_group s (n, g)). split.
  - by apply getGroup_found.
  - apply select_group_shown.
Qed.

(** X24. A member is listed: after a successful join, the reading of the
    group returns it with the user among its [users], shown with id,
    name, email and, as [spendings], the spendings of that user, each
    once. *)
Theorem join_then_getGroup (groupJoin : object) (s : store) (id : string)
    (userId groupId : Z) (password : string) (g : Group) (u : User) :
  groupJoin.["userId"] = Num (inject_Z userId) -> userId <> 0 ->
  int32 userId = true ->
  groupJoin.["groupId"] = Num (inject_Z groupId) -> groupId <> 0 ->
  int32 groupId = true ->
  groupJoin.["password"] = Str password -> password <> "" ->
  groups s !! groupId = Some g -> compareSync password (g_password g) = true ->
  users s !! userId = Some u ->
  isNaN id = false -> parseInt id = Some groupId ->
  let s1 := (joinGroup groupJoin s).1 in
  exists members member,
    getGroup id s1
    = (s1, inr (send 200 (Obj [("message", text "Grupo obtido com sucesso!");
         ("data", Arr [Obj [("id", int groupId); ("name", text (g_name g));
                            ("users", Arr members)]])])))
    /\ member ∈ members
    /\ shown_user s (userId, u) member.
Proof.
  intros Hu Hu0 Hu32 Hg Hg0 Hg32 Hp Hp0 Hgr Hok Hus Hnum Hid s1.
  unfold s1.
  rewrite (joinGroup_joins groupJoin s userId groupId password
             (conj Hu Hu0) (conj Hg (conj Hg0 Hg32)) (conj Hp Hp0) g u Hgr Hok
             Hu32 Hus). simpl.
  set (row := {| u_name := u_name u; u_email := u_email u;
                 u_password := u_password u; u_groupId := Some groupId |}).
  set (s' := set_users (insert userId row) s).
  exists (select_user s' <$> rows (member_of groupId) (users s')),
         (select_user s' (userId, row)).
  split; [|split].
  - by rewrite (getGroup_found id _ groupId g Hnum Hid Hg32).
  - apply (list_elem_of_fmap_2' _ _ (userId, row)); [|reflexivity].
    apply elem_of_rows. split; [apply lookup_insert_eq|].
    by apply member_of_true.
  - apply (select_user_shown s (userId, u)).
Qed.

(** *** Status codes *)

Lemma answers_send (P : response -> Prop) (st : Z) (b : value) :
  P (send st b) -> answers P (ret (send st b)).
Proof. by intros H s s' r [= <- <-]. Qed.

Lemma answers_throw (P : response -> Prop) (e : error) : answers P (throw e).
Proof. intros s s' r. discriminate. Qed.

Lemma answers_bind {A} (P : response -> Prop) (m : M A) (k : A -> M response) :
  (forall a, answers P (k a)) -> answers P (bind m k).
Proof.
  intros Hk s s' r. unfold bind.
  destruct (m s) as [s1 [e|a]]; [discriminate|]. apply Hk.
Qed.

Lemma answers_try_catch (P : response -> Prop) (m : M response) :
  answers P m -> (forall e, P (send 400 (Obj [("error", text (message e))]))) ->
  answers P (try_catch m catch_400).
Proof.
  intros Hm Hc s s' r. unfold try_catch.
  destruct (m s) as [s1 [e|a]] eqn:E.
  - intros [= <- <-]. apply Hc.
  - intros [= <- <-]. by apply (Hm _ _ _ E).
Qed.

Ltac answers_step :=
  lazymatch goal with
  | |- answers _ (try_catch _ catch_400) =>
    apply answers_try_catch; [|intros ?; rewrite status_send; set_solver]
  | |- answers _ (bind _ _) => apply answers_bind; intros ?
  | |- answers _ (ret (sendStatus _)) =>
    unfold sendStatus; apply answers_send; rewrite status_send; set_solver
  | |- answers _ (ret (send _ _)) =>
    apply answers_send; rewrite status_send; set_solver
  | |- answers _ (throw _) => apply answers_throw
  | |- answers _ (if ?c then _ else _) => destruct c
  | |- answers _ (match ?o with _ => _ end) => destruct o
  end.

Lemma every_route_answers_within (req : request) :
  answers (fun r => status r ∈ statuses req) (handle req).
Proof.
  destruct req; simpl;
    unfold register, login, listGroups, getGroup, createGroup, joinGroup, leaveGroup,
           listByUser, create, update, delete_;
    cbv zeta; repeat answers_step.
Qed.

(** X25. The status codes of each route: registration, the creation of a
    group, joining, leaving and the creation of a spending answer 201 or
    400; the listings answer 200 or 400; the login answers 200, 400, 404
    or 500; the update and the deletion of a spending answer 204, 400 or
    404.  In particular no group route ever answers 404. *)
Theorem route_statuses (req : request) (s s' : store) (r : response) :
  handle req s = (s', inr r) -> status r ∈ statuses req.
Proof. apply every_route_answers_within. Qed.

(** *** Creating a spending *)

(** X26. The checks of a creation, in the order they are made, whatever
    the [name]: a missing or zero [userId] is refused with "Um gasto deve
    estar relacionado a um usuário!", then a missing or empty [day] with
    "Dia é obrigatório!", then a missing or zero [value] with "Valor é
    obrigatório!", then a [day] that does not parse with "Formato de data
    inválido!"; each time with status 400 and the store untouched. *)
Theorem create_validation (newSpending : object) (s : store) :
  (truthy newSpending.["userId"] = false ->
   create newSpending s
   = (s, inr (send 400 (Obj [("error",
                              text "Um gasto deve estar relacionado a um usuário!")]))))
  /\
  (forall userId,
     newSpending.["userId"] = Num (inject_Z userId) -> userId <> 0 ->
     (truthy newSpending.["day"] = false ->
      create newSpending s
      = (s, inr (send 400 (Obj [("error", text "Dia é obrigatório!")]))))
     /\
     (forall text_day,
        newSpending.["day"] = Str text_day -> text_day <> "" ->
        (truthy newSpending.["value"] = false ->
         create newSpending s
         = (s, inr (send 400 (Obj [("error", text "Valor é obrigatório!")]))))
        /\
        (forall value,
           newSpending.["value"] = Num value -> is_zero value = false ->
           Date_parse text_day = None ->
           create newSpending s
           = (s, inr (send 400 (Obj [("error", text "Formato de data inválido!")])))))).
Proof.
  destruct (create_rejections newSpending s) as (H1 & H2 & H3 & H4).
  split; [intros H; apply H1; by rewrite (falsy_or_zero_falsy _ H)|].
  intros userId Hu Hu0.
  assert (falsy_or_zero newSpending.["userId"] = false) as Hu'
    by (rewrite Hu; by apply falsy_or_zero_id).
  split; [intros H; apply H2; [done|by rewrite (falsy_or_empty_falsy _ H)]|].
  intros text_day Hd Hd0.
  assert (falsy_or_empty newSpending.["day"] = false) as Hd'
    by (rewrite Hd; by apply falsy_or_empty_text).
  split; [intros H; apply H3; [done|done|by rewrite (falsy_or_zero_falsy _ H)]|].
  intros value Hv Hv0 Hparse. apply H4; try done.
  - rewrite Hv. by apply falsy_or_zero_num.
  - by rewrite Hd, new_Date_text.
Qed.

(** X27. A complete creation succeeds: in a store whose ids all come
    from the sequences, a request with a [userId] that names a user, a
    [day] that parses to a date of the years 1 to 9999, a non-zero
    [value] and a [name] is answered 201 with the next id of the
    sequence, and the row stored under that id carries exactly the name,
    the parsed day, the value and the user. *)
Theorem create_succeeds (newSpending : object) (s : store)
    (userId day : Z) (value : Q) (text_day name : string) :
  ids_issued s ->
  newSpending.["userId"] = Num (inject_Z userId) -> userId <> 0 ->
  int32 userId = true -> is_Some (users s !! userId) ->
  newSpending.["day"] = Str text_day -> text_day <> "" ->
  Date_parse text_day = Some day -> DateTime_fits day = true ->
  newSpending.["value"] = Num value -> is_zero value = false ->
  newSpending.["name"] = Str name ->
  create newSpending s
  = (set_spendings (insert (spending_seq s + 1)
                      {| sp_name := name; sp_day := day; sp_value := value;
                         sp_userId := userId |}) (next_spending_id s),
     inr (send 201 (Obj [("message", text "Gasto cadastrado com sucesso!");
                         ("data", Obj [("id", int (spending_seq s + 1))])]))).
Proof.
  intros (_ & _ & [_ Hs]) Hu Hu0 Hu32 [u Hus] Hd Hd0 Hparse Hfits Hv Hv0 Hn.
  apply (create_persists newSpending s userId day value text_day
           (conj Hu Hu0) (conj Hd Hd0) (conj Hv Hv0) Hparse name u Hn Hfits Hu32 Hus).
  apply eq_None_not_Some. intros Hsome. apply Hs in Hsome. lia.
Qed.

(** *** What the listings hold *)

(** X28. The listing of a user holds that user's spendings and no
    others: for a parameter that reads as an [Int], the answer is 200 and
    a value is in the list exactly when it is the rendering of a stored
    spending whose [userId] is the one asked for. *)
Theorem listByUser_exact (userId : string) (s : store) (n : Z) :
  isNaN userId = false -> parseInt userId = Some n -> int32 n = true ->
  exists found,
    listByUser userId s
    = (s, inr (send 200 (Obj [("message", text "Lista de gastos obtidas com sucesso!");
                              ("data", Arr found)])))
    /\ forall v,
         v ∈ found
         <-> exists k sp,
               spendings s !! k = Some sp /\ sp_userId sp = n
               /\ v = Obj [("id", int k); ("name", text (sp_name sp));
                           ("day", Date (sp_day sp)); ("value", Lit (Num (sp_value sp)));
                           ("userId", int (sp_userId sp))].
Proof.
  intros Hnum Hn H32. unfold listByUser, bind. rewrite Hnum, Hn. simpl.
  unfold await, prisma_spending_findMany_userId, Int_parsed, bind. simpl.
  rewrite H32. simpl. eexists. split; [reflexivity|].
  intros v. rewrite list_elem_of_fmap. split.
  - intros ([k sp] & -> & Hin). apply elem_of_rows in Hin as [Hk Ho].
    apply owned_by_true in Ho. by exists k, sp.
  - intros (k & sp & Hk & Ho & ->). exists (k, sp). split; [reflexivity|].
    apply elem_of_rows. split; [exact Hk|by apply owned_by_true].
Qed.

(** X29. The listing of the groups answers 200 for every store and
    holds every group exactly once: as many elements as there are
    groups, each showing one stored group with its id, its name and its
    members.  The order of the groups, of the members and of their
    spendings is the one the database returns and is not determined. *)
Theorem listGroups_all (s : store) :
  exists gs found,
    listGroups s
    = (s, inr (send 200 (Obj [("message", text "Grupos obtido com sucesso!");
                              ("data", Arr found)])))
    /\ length found = size (groups s)
    /\ lists_rows (fun _ _ => True) (groups s) gs
    /\ Forall2 (shown_group s) gs found.
Proof.
  exists (all_rows (groups s)), (select_group s <$> all_rows (groups s)).
  split; [reflexivity|]. split; [|split].
  - by rewrite length_fmap, length_all_rows.
  - rewrite <-rows_all. by apply rows_lists.
  - apply Forall2_fmap_self. apply select_group_shown.
Qed.

Lemma update_done (id : string) (updateSpending : object) (s : store)
    (spendingID userId day : Z) (value : Q) (text_day name : string) :
  isNaN id = false -> parseInt id = Some spendingID ->
  spendingID <> 0 -> int32 spendingID = true ->
  updateSpending.["userId"] = Num (inject_Z userId) -> userId <> 0 ->
  int32 userId = true ->
  updateSpending.["day"] = Str text_day -> text_day <> "" ->
  Date_parse text_day = Some day -> DateTime_fits day = true ->
  updateSpending.["value"] = Num value -> is_zero value = false ->
  updateSpending.["name"] = Str name ->
  is_Some (spendings s !! spendingID) -> is_Some (users s !! userId) ->
  (update id updateSpending s).1
  = set_spendings (insert spendingID {| sp_name := name; sp_day := day;
                                        sp_value := value; sp_userId := userId |}) s.
Proof.
  intros Hnum Hid Hid0 Hid32 Hu Hu0 Hu32 Hd Hd0 Hparse Hfits Hv Hv0 Hn [old Hold] [u Hus].
  rewrite (update_reaches_prisma id updateSpending s spendingID userId day value
             text_day (conj Hnum (conj Hid (conj Hid0 Hid32))) (conj Hu Hu0)
             (conj Hd Hd0) (conj Hv Hv0) Hparse), Hold, Hn.
  rewrite (await_spending_update id s spendingID userId day value
             (conj Hnum (conj Hid (conj Hid0 Hid32))) (Str name) old Hfits Hu32 Hold);
    [|right; by eexists].
  by rewrite Hus.
Qed.

(** X30. An update is seen by the listings that follow: after an update
    that succeeds (complete body, a [day] of the years 1 to 9999,
    existing spending and user), the listing of the user named in the
    body holds the spending with its new name, day and value, and the
    listing of any other user holds no spending with that id, so an
    update can hand a spending over to another user. *)
Theorem update_then_listByUser (id : string) (updateSpending : object) (s : store)
    (spendingID userId day : Z) (value : Q) (text_day name : string) :
  isNaN id = false -> parseInt id = Some spendingID ->
  spendingID <> 0 -> int32 spendingID = true ->
  updateSpending.["userId"] = Num (inject_Z userId) -> userId <> 0 ->
  int32 userId = true ->
  updateSpending.["day"] = Str text_day -> text_day <> "" ->
  Date_parse text_day = Some day -> DateTime_fits day = true ->
  updateSpending.["value"] = Num value -> is_zero value = false ->
  updateSpending.["name"] = Str name ->
  is_Some (spendings s !! spendingID) -> is_Some (users s !! userId) ->
  let s1 := (update id updateSpending s).1 in
  (forall param,
     isNaN param = false -> parseInt param = Some userId ->
     exists found,
       listByUser param s1
       = (s1, inr (send 200 (Obj [("message",
                                   text "Lista de gastos obtidas com sucesso!");
                                  ("data", Arr found)])))
       /\ Obj [("id", int spendingID); ("name", text name); ("day", Date day);
               ("value", Lit (Num value)); ("userId", int userId)] ∈ found)
  /\
  (forall param other found,
     parseInt param = Some other -> other <> userId ->
     listByUser param s1
     = (s1, inr (send 200 (Obj [("message",
                                 text "Lista de gastos obtidas com sucesso!");
                                ("data", Arr found)]))) ->
     forall sp, select_spending (spendingID, sp) ∉ found).
Proof.
  intros Hnum Hid Hid0 Hid32 Hu Hu0 Hu32 Hd Hd0 Hparse Hfits Hv Hv0 Hn Hold Hus s1.
  assert (s1 = set_spendings (insert spendingID {| sp_name := name; sp_day := day;
                                                   sp_value := value;
                                                   sp_userId := userId |}) s) as ->
    by by apply (update_done id updateSpending s spendingID userId day value
                   text_day name).
  split.
  - intros param Hpnum Hp. unfold listByUser, bind. rewrite Hpnum, Hp. simpl.
    unfold await, prisma_spending_findMany_userId, Int_parsed, bind. simpl.
    rewrite Hu32. simpl. eexists. split; [reflexivity|].
    apply (list_elem_of_fmap_2' _ _
             (spendingID, {| sp_name := name; sp_day := day; sp_value := value;
                             sp_userId := userId |})); [|reflexivity].
    apply elem_of_rows. split; [apply lookup_insert_eq|by apply owned_by_true].
  - intros param other found Hp Hne Hlist sp Hin.
    apply listByUser_found in Hlist as (other' & Hp' & ->).
    rewrite Hp in Hp'. injection Hp' as <-.
    apply list_elem_of_fmap in Hin as ([k sp'] & Heq & Hin).
    apply elem_of_rows in Hin as [Hk Ho]. apply owned_by_true in Ho.
    unfold select_spending in Heq. simpl in Heq. injection Heq as Hk' _.
    simpl in Hk. subst k. rewrite lookup_insert_eq in Hk.
    injection Hk as <-. simpl in Ho. congruence.
Qed.

End Contracts.

(** ** The statements at concrete requests *)

Section Examples.

#[local] Existing Instance demo.


(** Bia belongs to group 2 and leaves group 1. *)
Lemma leaveGroup_ignores_membership_witness :
  leaveGroup (membership 2 1) two_groups
  = (set_users (insert 2 {| u_name := "Bia"; u_email := "bia@example.com";
                            u_password := "s2$abc"; u_groupId := None |}) two_groups,
     inr (send 201 (Obj [("message", text "Usuário removido com sucesso!");
                         ("data", Obj [("id", int 2)])]))).
Proof.
  apply (leaveGroup_ignores_membership (membership 2 1) two_groups 2 1
           {| g_name := "Casa"; g_password := "g1$pw" |}
           "Bia" "bia@example.com" "s2$abc" (Some 2)
           eq_refl ltac:(lia) eq_refl eq_refl ltac:(lia) eq_refl).
  - vm_compute. reflexivity.
  - vm_compute. reflexivity.
Defined.

Lemma getGroup_never_404_witness :
  getGroup "7" two_groups
  = (two_groups, inr (send 200 (Obj [("message", text "Grupo obtido com sucesso!");
                                     ("data", Arr [])]))).
Proof.
  apply (proj1 (getGroup_never_404 "7" two_groups) 7); vm_compute; reflexivity.
Defined.

(** C9 as stated, for every numeric id, fails at the id "99999999999":
    it passes the numeric test and names no group, yet the answer is not
    200 with an empty list but 400, the client refusing a value that
    does not fit the [Int] column. *)
Lemma getGroup_numeric_id_beyond_Int :
  isNaN "99999999999" = false
  /\ groups two_groups !! 99999999999 = None
  /\ getGroup "99999999999" two_groups
     = (two_groups, inr (send 400 (Obj [("error", text "Invalid invocation")])))
  /\ status (send 400 (Obj [("error", text "Invalid invocation")])) <> 200.
Proof.
  split; [reflexivity|]. split; [vm_compute; reflexivity|].
  split; [vm_compute; reflexivity|]. vm_compute. discriminate.
Qed.

Lemma two_users_rows : users two_users = <[2 := bia_row]> (<[1 := ana_row]> ∅).
Proof. vm_compute. reflexivity. Qed.

Lemma two_users_emails_unique : emails_unique two_users.
Proof.
  intros i j u v. rewrite two_users_rows.
  rewrite !lookup_insert_Some, !lookup_empty. intros Hi Hj He.
  destruct Hi as [[<- <-]|[? [[<- <-]|[? ?]]]]; [| |done];
    destruct Hj as [[<- <-]|[? [[<- <-]|[? ?]]]]; try done.
Qed.

Lemma login_contract_witness :
  login 0 (credentials "ana@example.com" "") two_users
  = (two_users, inr (send 400 (Obj [("error", text "Email ou senha inválidos")])))
  /\
  login 0 (credentials "eva@example.com" "senha123") two_users
  = (two_users, inr (send 404 (Obj [("error", text "Usuário não encontrado!")])))
  /\
  login 0 (credentials "ana@example.com" "senha12") two_users
  = (two_users, inr (send 400 (Obj [("error", text "Email ou senha incorretos!")])))
  /\
  login 0 (credentials "ana@example.com" "senha123") two_users
  = (two_users,
     inr (send 200 (Obj [("message", text "Login efetuado com sucesso!");
                         ("data", Obj [("userId", int 1);
                                       ("token", text "ana@example.com.15d.secret")])]))).
Proof.
  split; [|split; [|split]].
  - apply (proj1 (login_contract 0 (credentials "ana@example.com" "") two_users)).
    right. reflexivity.
  - apply (proj1 (proj2 (login_contract 0 (credentials "eva@example.com" "senha123")
                           two_users)
                    "eva@example.com" "senha123" eq_refl ltac:(done) eq_refl ltac:(done))).
    intros id u. rewrite two_users_rows, !lookup_insert_Some, lookup_empty.
    intros [[_ <-]|[_ [[_ <-]|[_ ?]]]]; done.
  - apply (proj1 (proj2 (proj2 (login_contract 0 (credentials "ana@example.com" "senha12")
                                  two_users)
                           "ana@example.com" "senha12" eq_refl ltac:(done) eq_refl
                           ltac:(done))
                    1 ana_row two_users_emails_unique eq_refl eq_refl)).
    vm_compute. reflexivity.
  - apply (proj2 (proj2 (proj2 (login_contract 0 (credentials "ana@example.com" "senha123")
                                  two_users)
                           "ana@example.com" "senha123" eq_refl ltac:(done) eq_refl
                           ltac:(done))
                    1 ana_row two_users_emails_unique eq_refl eq_refl)
             "ana@example.com.15d.secret").
    + vm_compute. reflexivity.
    + reflexivity.
Defined.

Lemma register_always_creates_witness :
  register "s3" ana two_users
  = (next_user_id two_users,
     inr (send 400 (Obj [("error", text "Unique constraint failed")])))
  /\
  register "s3" caio two_users
  = (set_users (insert 3 {| u_name := "Caio"; u_email := "caio@example.com";
                            u_password := "s3$xyz"; u_groupId := None |})
               (next_user_id two_users),
     inr (send 201 (Obj [("message", text "Usuário cadastrado com sucesso!");
                         ("data", Obj [("id", int 3)])]))).
Proof.
  split.
  - apply (proj1 (proj2 (register_always_creates (RT:=demo) "s3" ana two_users
                           eq_refl eq_refl eq_refl)
                    "Ana" "ana@example.com" "senha123" eq_refl eq_refl eq_refl)).
    exists 1, ana_row. split; reflexivity.
  - apply (proj2 (proj2 (register_always_creates (RT:=demo) "s3" caio two_users
                           eq_refl eq_refl eq_refl)
                    "Caio" "caio@example.com" "xyz" eq_refl eq_refl eq_refl)).
    + intros i u. rewrite two_users_rows, !lookup_insert_Some, lookup_empty.
      intros [[_ <-]|[_ [[_ <-]|[_ ?]]]]; done.
    + reflexivity.
Defined.

(** Bia (id 2) creates the first group: it takes the id 1, and it is Ana
    (id 1) who becomes its member while Bia stays without a group.  With
    two groups in place the next group takes the id 3, no user has that
    id, and the request is answered 400 after the group has been
    created. *)
Lemma createGroup_links_user_numbered_like_group_witness :
  createGroup "g1" (casa 2) two_users
  = (set_users (insert 1 {| u_name := "Ana"; u_email := "ana@example.com";
                            u_password := "s1$senha123"; u_groupId := Some 1 |})
       (set_groups (insert 1 {| g_name := "Casa"; g_password := "g1$pw" |})
          (next_group_id two_users)),
     inr (send 201 (Obj [("message", text "Grupo cadastrado com sucesso!");
                         ("data", Obj [("id", int 1)])])))
  /\
  createGroup "g3" (rua 1) two_groups
  = (set_groups (insert 3 {| g_name := "Rua"; g_password := "g3$pw" |})
       (next_group_id two_groups),
     inr (send 400 (Obj [("error", text "Record to update not found")])))
  /\
  users (createGroup "g1" (casa 2) two_users).1 !! 2 = Some bia_row.
Proof.
  assert (forall k g, groups two_users !! k = Some g -> g_name g <> "Casa") as Hcasa.
  { intros k g. assert (groups two_users = ∅) as -> by (vm_compute; reflexivity).
    by rewrite lookup_empty. }
  assert (forall k g, groups two_groups !! k = Some g -> g_name g <> "Rua") as Hrua.
  { intros k g.
    assert (groups two_groups
            = <[2 := {| g_name := "Trabalho"; g_password := "g2$1234" |}]>
                (<[1 := {| g_name := "Casa"; g_password := "g1$pw" |}]> ∅)) as ->
      by (vm_compute; reflexivity).
    rewrite !lookup_insert_Some, lookup_empty.
    intros [[_ <-]|[_ [[_ <-]|[_ ?]]]]; done. }
  split; [|split].
  - apply (proj1 (createGroup_links_user_numbered_like_group "g1" (casa 2) two_users 2
                    "Casa" "pw" eq_refl ltac:(done) eq_refl ltac:(done) eq_refl
                    ltac:(done) Hcasa eq_refl eq_refl) ana_row).
    reflexivity.
  - apply (proj1 (proj2 (createGroup_links_user_numbered_like_group "g3" (rua 1)
                           two_groups 1 "Rua" "pw" eq_refl ltac:(done) eq_refl
                           ltac:(done) eq_refl ltac:(done) Hrua eq_refl eq_refl))).
    reflexivity.
  - rewrite (proj2 (proj2 (createGroup_links_user_numbered_like_group "g1" (casa 2)
                             two_users 2 "Casa" "pw" eq_refl ltac:(done) eq_refl
                             ltac:(done) eq_refl ltac:(done) Hcasa eq_refl eq_refl))).
    + reflexivity.
    + done.
Defined.

Lemma joinGroup_absent_group_reports_duplicate_name_witness :
  joinGroup (joining 2 7 "pw") two_groups
  = (two_groups,
     inr (send 400 (Obj [("error", text "Já existe um grupo com esse nome!")])))
  /\
  leaveGroup (joining 2 7 "pw") two_groups
  = (two_groups, inr (send 400 (Obj [("error", text "Grupo não encontrado!")]))).
Proof.
  apply (joinGroup_absent_group_reports_duplicate_name (joining 2 7 "pw") two_groups
           2 7 "pw" eq_refl ltac:(done) eq_refl ltac:(done) eq_refl eq_refl ltac:(done)).
  reflexivity.
Defined.

Lemma create_without_name_is_refused_witness :
  create unnamed two_users
  = (two_users, inr (send 400 (Obj [("error", text "Invalid invocation")]))).
Proof.
  apply (create_without_name_is_refused unnamed two_users 2 1725366896000
           (Qmake 5 2) "2024-09-03T12:34:56Z"
           eq_refl ltac:(done) eq_refl ltac:(done) eq_refl eq_refl eq_refl eq_refl).
Defined.


(** Two states that differ in every stored hash, and the listings on them. *)
Lemma passwords_never_returned_witness :
  two_groups <> two_groups_resalted
  /\ mentions "password" (body (send 200 (Obj [("message", text "Grupos obtido com sucesso!");
        ("data", Arr (select_group two_groups <$> all_rows (groups two_groups)))])))
      = false
  /\ (listGroups two_groups).2 = (listGroups two_groups_resalted).2
  /\ (getGroup "1" two_groups).2 = (getGroup "1" two_groups_resalted).2.
Proof.
  assert (same_but_passwords two_groups two_groups_resalted) as Hsame
    by (repeat split; vm_compute; reflexivity).
  split; [|split; [|split]].
  - intros H. apply (f_equal (fun s => u_password <$> users s !! 1)) in H.
    vm_compute in H. discriminate.
  - apply (proj1 passwords_never_returned GET_group two_groups two_groups).
    vm_compute. reflexivity.
  - apply (proj1 (proj2 passwords_never_returned two_groups two_groups_resalted Hsame)).
  - apply (proj2 (proj2 passwords_never_returned two_groups two_groups_resalted Hsame)).
Defined.


Lemma update_keeps_omitted_name_witness :
  update "1" sem_nome one_spending
  = (set_spendings (insert 1 {| sp_name := "almoço"; sp_day := 1725366896000;
                                sp_value := Qmake 40 1; sp_userId := 1 |}) one_spending,
     inr (send 204 (Obj [("message", text "Gasto atualizado com sucesso!");
                         ("data", Obj [("id", int 1)])]))).
Proof.
  apply (update_keeps_omitted_name (RT:=demo) "1" sem_nome one_spending 1 1
           1725366896000 (Qmake 40 1) "2024-09-03T12:34:56Z"
           {| sp_name := "almoço"; sp_day := 1725366896000;
              sp_value := Qmake 5 2; sp_userId := 2 |}
           eq_refl eq_refl ltac:(done) eq_refl eq_refl ltac:(done) eq_refl
           eq_refl ltac:(done) eq_refl eq_refl eq_refl eq_refl eq_refl).
  - vm_compute. reflexivity.
  - vm_compute. eauto.
Defined.



Lemma delete_then_gone_witness :
  exists spendingID,
    parseInt "1" = Some spendingID
    /\ spendings (run (delete_ "1") one_spending) !! spendingID = None
    /\ delete_ "1" (run (delete_ "1") one_spending)
       = (run (delete_ "1") one_spending,
          inr (send 404 (Obj [("error", text "Gasto não encontrado!")])))
    /\ forall param found,
         listByUser param (run (delete_ "1") one_spending)
         = (run (delete_ "1") one_spending,
            inr (send 200 (Obj [("message",
                                 text "Lista de gastos obtidas com sucesso!");
                                ("data", Arr found)]))) ->
         forall sp, select_spending (spendingID, sp) ∉ found.
Proof.
  apply (delete_then_gone (RT:=demo) "1" one_spending (run (delete_ "1") one_spending)
           (send 204 (Obj [("message", text "Gasto atualizado com sucesso!");
                           ("data", Obj [("id", int 1)])]))).
  - vm_compute. reflexivity.
  - reflexivity.
Defined.

Lemma bad_route_parameter_is_400_witness :
  (getGroup "abc" two_groups = (two_groups, inr (send 400 (text "Bad Request")))
   /\ listByUser "abc" two_groups = (two_groups, inr (send 400 (text "Bad Request")))
   /\ update "abc" jantar two_groups = (two_groups, inr (send 400 (text "Bad Request")))
   /\ delete_ "abc" two_groups = (two_groups, inr (send 400 (text "Bad Request"))))
  /\
  (update "0" jantar two_groups
   = (two_groups, inr (send 400 (Obj [("error", text "ID de gasto inválido!")])))
   /\ delete_ "0" two_groups
      = (two_groups, inr (send 400 (Obj [("error", text "ID de gasto inválido!")])))).
Proof.
  split.
  - apply (proj1 (bad_route_parameter_is_400 (RT:=demo) "abc" jantar two_groups)).
    reflexivity.
  - apply (proj2 (bad_route_parameter_is_400 (RT:=demo) "0" jantar two_groups)).
    + reflexivity.
    + left. reflexivity.
Defined.

Lemma listByUser_unanswered_witness :
  listByUser "99999999999" two_users = (two_users, inl (Thrown PrismaValidationError)).
Proof.
  apply (listByUser_unanswered (RT:=demo) "99999999999" two_users eq_refl).
  right. exists 99999999999. split; reflexivity.
Defined.

Lemma empty_store_consistent :
  emails_unique empty_store /\ names_unique empty_store
  /\ references_hold empty_store /\ ids_issued empty_store.
Proof.
  unfold emails_unique, names_unique, references_hold, ids_issued. simpl.
  repeat split; try done; intros;
    repeat match goal with H : is_Some _ |- _ => destruct H end;
    match goal with H : ∅ !! _ = Some _ |- _ => by rewrite lookup_empty in H end.
Qed.

(** The invariants on the way from the empty database to Ana joining the
    second group. *)
Lemma unique_indexes_kept_witness :
  emails_unique (run (joinGroup ana_joins) two_groups)
  /\ names_unique (run (joinGroup ana_joins) two_groups).
Proof.
  destruct empty_store_consistent as (He & Hn & _).
  pose proof (unique_indexes_kept (RT:=demo) (POST_user "s1" ana) empty_store _ _
                He Hn (surjective_pairing _)) as [He1 Hn1].
  pose proof (unique_indexes_kept (RT:=demo) (POST_user "s2" bia) _ _ _
                He1 Hn1 (surjective_pairing _)) as [He2 Hn2].
  pose proof (unique_indexes_kept (RT:=demo) (POST_group "g1" (casa 1)) _ _ _
                He2 Hn2 (surjective_pairing _)) as [He3 Hn3].
  pose proof (unique_indexes_kept (RT:=demo) (POST_group "g2" (trabalho 2)) _ _ _
                He3 Hn3 (surjective_pairing _)) as [He4 Hn4].
  exact (unique_indexes_kept (RT:=demo) (POST_group_join ana_joins) _ _ _
           He4 Hn4 (surjective_pairing _)).
Defined.

Lemma references_kept_witness :
  references_hold (run (joinGroup ana_joins) two_groups).
Proof.
  destruct empty_store_consistent as (_ & _ & H0 & _).
  pose proof (references_kept (RT:=demo) (POST_user "s1" ana) empty_store _ _
                H0 (surjective_pairing _)) as H1.
  pose proof (references_kept (RT:=demo) (POST_user "s2" bia) _ _ _
                H1 (surjective_pairing _)) as H2.
  pose proof (references_kept (RT:=demo) (POST_group "g1" (casa 1)) _ _ _
                H2 (surjective_pairing _)) as H3.
  pose proof (references_kept (RT:=demo) (POST_group "g2" (trabalho 2)) _ _ _
                H3 (surjective_pairing _)) as H4.
  exact (references_kept (RT:=demo) (POST_group_join ana_joins) _ _ _
           H4 (surjective_pairing _)).
Defined.

Lemma ids_issued_kept_witness :
  ids_issued one_spending
  /\ users one_spending !! (user_seq one_spending + 1) = None
  /\ groups one_spending !! (group_seq one_spending + 1) = None
  /\ spendings one_spending !! (spending_seq one_spending + 1) = None.
Proof.
  destruct empty_store_consistent as (_ & _ & _ & H0).
  pose proof (ids_issued_kept (RT:=demo) (POST_user "s1" ana) empty_store _ _
                H0 (surjective_pairing _)) as [H1 _].
  pose proof (ids_issued_kept (RT:=demo) (POST_user "s2" bia) _ _ _
                H1 (surjective_pairing _)) as [H2 _].
  exact (ids_issued_kept (RT:=demo) (POST_spending lunch) _ _ _
           H2 (surjective_pairing _)).
Defined.

Lemma one_spending_ids_issued : ids_issued one_spending.
Proof.
  assert (users one_spending = <[2 := bia_row]> (<[1 := ana_row]> ∅)) as Hu
    by (vm_compute; reflexivity).
  assert (groups one_spending = ∅) as Hg by (vm_compute; reflexivity).
  assert (spendings one_spending
          = <[1 := {| sp_name := "almoço"; sp_day := 1725366896000;
                      sp_value := Qmake 5 2; sp_userId := 2 |}]> ∅) as Hs
    by (vm_compute; reflexivity).
  unfold ids_issued. rewrite Hu, Hg, Hs.
  change (user_seq one_spending) with 2. change (group_seq one_spending) with 0.
  change (spending_seq one_spending) with 1.
  repeat split; try done; intros;
    repeat match goal with
           | H : is_Some (<[_:=_]> _ !! _) |- _ =>
             apply lookup_insert_is_Some' in H as [<-|H]
           | H : is_Some (∅ !! _) |- _ =>
             destruct H as [? H]; by rewrite lookup_empty in H
           end; lia.
Qed.

Lemma deleted_id_not_reused_witness :
  exists deleted created,
    parseInt "1" = Some deleted
    /\ send 201 (Obj [("message", text "Gasto cadastrado com sucesso!");
                      ("data", Obj [("id", int 2)])])
       = send 201 (Obj [("message", text "Gasto cadastrado com sucesso!");
                        ("data", Obj [("id", int created)])])
    /\ deleted < created
    /\ spendings (run (create jantar) (run (delete_ "1") one_spending)) !! deleted = None
    /\ is_Some (spendings (run (create jantar) (run (delete_ "1") one_spending))
                  !! created).
Proof.
  apply (deleted_id_not_reused (RT:=demo) "1" jantar one_spending
           (run (delete_ "1") one_spending)
           (run (create jantar) (run (delete_ "1") one_spending))
           (send 204 (Obj [("message", text "Gasto atualizado com sucesso!");
                           ("data", Obj [("id", int 1)])]))
           (send 201 (Obj [("message", text "Gasto cadastrado com sucesso!");
                           ("data", Obj [("id", int 2)])]))
           one_spending_ids_issued).
  - vm_compute. reflexivity.
  - reflexivity.
  - vm_compute. reflexivity.
  - reflexivity.
Defined.

Lemma register_then_login_witness :
  exists id email password,
    caio.["email"] = Str email /\ caio.["password"] = Str password
    /\ send 201 (Obj [("message", text "Usuário cadastrado com sucesso!");
                      ("data", Obj [("id", int 3)])])
       = send 201 (Obj [("message", text "Usuário cadastrado com sucesso!");
                        ("data", Obj [("id", int id)])])
    /\ forall token,
         compareSync password (hashSync password "s3") = true ->
         jwt_sign id email JWTsecret "15d" 0 = Some token ->
         login 0 (credentials "caio@example.com" "xyz")
           (run (register "s3" caio) two_users)
         = (run (register "s3" caio) two_users,
            inr (send 200 (Obj [("message", text "Login efetuado com sucesso!");
                                ("data", Obj [("userId", int id);
                                              ("token", text token)])]))).
Proof.
  apply (register_then_login (RT:=demo) "s3" caio
           (credentials "caio@example.com" "xyz") two_users
           (run (register "s3" caio) two_users)
           (send 201 (Obj [("message", text "Usuário cadastrado com sucesso!");
                           ("data", Obj [("id", int 3)])]))
           0 two_users_emails_unique).
  - vm_compute. reflexivity.
  - reflexivity.
  - reflexivity.
  - reflexivity.
Defined.

Lemma register_taken_email_witness :
  exists s' r,
    register "s9" ana two_groups = (s', inr r)
    /\ status r = 400 /\ users s' = users two_groups.
Proof.
  apply (register_taken_email (RT:=demo) "s9" ana two_groups "ana@example.com"
           eq_refl).
  exists 1, {| u_name := "Ana"; u_email := "ana@example.com";
               u_password := "s1$senha123"; u_groupId := Some 1 |}.
  split; reflexivity.
Defined.

Lemma two_groups_rows :
  groups two_groups
  = <[2 := {| g_name := "Trabalho"; g_password := "g2$1234" |}]>
      (<[1 := {| g_name := "Casa"; g_password := "g1$pw" |}]> ∅).
Proof. vm_compute. reflexivity. Qed.

Lemma rua_is_free : forall k g, groups two_groups !! k = Some g -> g_name g <> "Rua".
Proof.
  intros k g. rewrite two_groups_rows, !lookup_insert_Some, lookup_empty.
  intros [[_ <-]|[_ [[_ <-]|[_ ?]]]]; done.
Qed.

(** The creation of "Rua" is answered 400, no user having the id 3, and
    yet the name is taken. *)
Lemma createGroup_attempt_takes_name_witness :
  createGroup "g3" (rua 1) two_groups
  = (run (createGroup "g3" (rua 1)) two_groups,
     inr (send 400 (Obj [("error", text "Record to update not found")])))
  /\ groups (run (createGroup "g3" (rua 1)) two_groups) !! 3
     = Some {| g_name := "Rua"; g_password := "g3$pw" |}
  /\ createGroup "g4" (rua 2) (run (createGroup "g3" (rua 1)) two_groups)
     = (run (createGroup "g3" (rua 1)) two_groups,
        inr (send 400 (Obj [("error", text "Já existe um grupo com esse nome!")]))).
Proof.
  split; [vm_compute; reflexivity|].
  apply (createGroup_attempt_takes_name (RT:=demo) "g3" "g4" (rua 1) (rua 2) two_groups
           1 2 "Rua" "pw" "pw"
           eq_refl ltac:(done) eq_refl ltac:(done) eq_refl ltac:(done)
           rua_is_free eq_refl eq_refl
           eq_refl ltac:(done) eq_refl eq_refl ltac:(done)).
Defined.

Lemma createGroup_ignores_userId_witness :
  createGroup "g1" (casa 2) two_users = createGroup "g1" (casa 1) two_users.
Proof.
  apply (createGroup_ignores_userId (RT:=demo) "g1" (casa 1) (casa 2) two_users
           eq_refl eq_refl eq_refl eq_refl).
Defined.

Lemma joinGroup_password_gate_witness :
  joinGroup (joining 1 2 "4321") two_groups
  = (two_groups, inr (send 400 (Obj [("error", text "Senha incorreta!")])))
  /\
  joinGroup ana_joins two_groups
  = (set_users (insert 1 {| u_name := "Ana"; u_email := "ana@example.com";
                            u_password := "s1$senha123"; u_groupId := Some 2 |})
               two_groups,
     inr (send 201 (Obj [("message", text "Usuário adicionado com sucesso!");
                         ("data", Obj [("id", int 1)])]))).
Proof.
  split.
  - apply (proj1 (joinGroup_password_gate (RT:=demo) (joining 1 2 "4321") two_groups
                    1 2 "4321" {| g_name := "Trabalho"; g_password := "g2$1234" |}
                    eq_refl ltac:(done) eq_refl eq_refl ltac:(done) eq_refl
                    eq_refl ltac:(done) eq_refl)).
    reflexivity.
  - apply (proj2 (joinGroup_password_gate (RT:=demo) ana_joins two_groups
                    1 2 "1234" {| g_name := "Trabalho"; g_password := "g2$1234" |}
                    eq_refl ltac:(done) eq_refl eq_refl ltac:(done) eq_refl
                    eq_refl ltac:(done) eq_refl)
             {| u_name := "Ana"; u_email := "ana@example.com";
                u_password := "s1$senha123"; u_groupId := Some 1 |}).
    + reflexivity.
    + reflexivity.
Defined.

Lemma joinGroup_verifies_witness :
  (exists userId groupId password g u,
     as_Int ana_joins.["userId"] = Some userId
     /\ as_Int ana_joins.["groupId"] = Some groupId
     /\ ana_joins.["password"] = Str password
     /\ groups two_groups !! groupId = Some g
     /\ compareSync password (g_password g) = true
     /\ users two_groups !! userId = Some u
     /\ run (joinGroup ana_joins) two_groups
        = set_users (insert userId {| u_name := u_name u; u_email := u_email u;
                                      u_password := u_password u;
                                      u_groupId := Some groupId |}) two_groups
     /\ send 201 (Obj [("message", text "Usuário adicionado com sucesso!");
                       ("data", Obj [("id", int 1)])])
        = send 201 (Obj [("message", text "Usuário adicionado com sucesso!");
                         ("data", Obj [("id", int userId)])]))
  \/ (status (send 201 (Obj [("message", text "Usuário adicionado com sucesso!");
                             ("data", Obj [("id", int 1)])])) = 400
      /\ run (joinGroup ana_joins) two_groups = two_groups).
Proof.
  apply (joinGroup_verifies (RT:=demo) ana_joins two_groups).
  vm_compute. reflexivity.
Defined.

Lemma login_verifies_witness :
  exists id u email password token,
    (credentials "ana@example.com" "senha123").["email"] = Str email
    /\ (credentials "ana@example.com" "senha123").["password"] = Str password
    /\ users two_users !! id = Some u /\ u_email u = email
    /\ compareSync password (u_password u) = true
    /\ jwt_sign id email JWTsecret "15d" 0 = Some token
    /\ send 200 (Obj [("message", text "Login efetuado com sucesso!");
                      ("data", Obj [("userId", int 1);
                                    ("token", text "ana@example.com.15d.secret")])])
       = send 200 (Obj [("message", text "Login efetuado com sucesso!");
                        ("data", Obj [("userId", int id); ("token", text token)])]).
Proof.
  apply (login_verifies (RT:=demo) 0 (credentials "ana@example.com" "senha123")
           two_users two_users).
  - vm_compute. reflexivity.
  - reflexivity.
Defined.

(** Bia, who has no group, joins "Casa" and leaves it. *)
Lemma join_then_leave_witness :
  leaveGroup (joining 2 1 "pw") (run (joinGroup (joining 2 1 "pw")) one_group)
  = (set_users (insert 2 bia_row) one_group,
     inr (send 201 (Obj [("message", text "Usuário removido com sucesso!");
                         ("data", Obj [("id", int 2)])])))
  /\ (leaveGroup (joining 2 1 "pw") (run (joinGroup (joining 2 1 "pw")) one_group)).1
     = one_group.
Proof.
  pose proof (join_then_leave (RT:=demo) (joining 2 1 "pw") one_group 2 1 "pw"
                {| g_name := "Casa"; g_password := "g1$pw" |} bia_row
                eq_refl ltac:(done) eq_refl eq_refl ltac:(done) eq_refl
                eq_refl ltac:(done) eq_refl eq_refl eq_refl) as [H1 H2].
  split; [exact H1|exact (H2 eq_refl)].
Defined.


Lemma getGroup_existing_witness :
  exists v,
    getGroup "2" two_groups
    = (two_groups,
       inr (send 200 (Obj [("message", text "Grupo obtido com sucesso!");
                           ("data", Arr [v])])))
    /\ shown_group two_groups (2, {| g_name := "Trabalho"; g_password := "g2$1234" |}) v.
Proof.
  apply (getGroup_existing (RT:=demo) "2" two_groups 2
           {| g_name := "Trabalho"; g_password := "g2$1234" |}
           eq_refl eq_refl eq_refl eq_refl).
Defined.

Lemma join_then_getGroup_witness :
  exists members member,
    getGroup "1" (run (joinGroup (joining 2 1 "pw")) one_group)
    = (run (joinGroup (joining 2 1 "pw")) one_group,
       inr (send 200 (Obj [("message", text "Grupo obtido com sucesso!");
         ("data", Arr [Obj [("id", int 1); ("name", text "Casa");
                            ("users", Arr members)]])])))
    /\ member ∈ members
    /\ shown_user one_group (2, bia_row) member.
Proof.
  apply (join_then_getGroup (RT:=demo) (joining 2 1 "pw") one_group "1" 2 1 "pw"
           {| g_name := "Casa"; g_password := "g1$pw" |} bia_row
           eq_refl ltac:(done) eq_refl eq_refl ltac:(done) eq_refl
           eq_refl ltac:(done) eq_refl eq_refl eq_refl eq_refl eq_refl).
Defined.

Lemma route_statuses_witness :
  status (send 400 (Obj [("error", text "Já existe um grupo com esse nome!")]))
  ∈ statuses (POST_group_join (joining 2 7 "pw")).
Proof.
  apply (route_statuses (RT:=demo) (POST_group_join (joining 2 7 "pw"))
           two_groups two_groups).
  vm_compute. reflexivity.
Defined.

Lemma create_validation_witness :
  create sem_usuario two_users
  = (two_users,
     inr (send 400 (Obj [("error",
                          text "Um gasto deve estar relacionado a um usuário!")])))
  /\ create sem_dia two_users
     = (two_users, inr (send 400 (Obj [("error", text "Dia é obrigatório!")])))
  /\ create valor_zero two_users
     = (two_users, inr (send 400 (Obj [("error", text "Valor é obrigatório!")])))
  /\ create dia_ruim two_users
     = (two_users, inr (send 400 (Obj [("error", text "Formato de data inválido!")]))).
Proof.
  split; [|split; [|split]].
  - apply (proj1 (create_validation (RT:=demo) sem_usuario two_users)). reflexivity.
  - apply (proj1 (proj2 (create_validation (RT:=demo) sem_dia two_users)
                    1 eq_refl ltac:(done))).
    reflexivity.
  - apply (proj1 (proj2 (proj2 (create_validation (RT:=demo) valor_zero two_users)
                           1 eq_refl ltac:(done))
                    "2024-09-03T12:34:56Z" eq_refl ltac:(done))).
    reflexivity.
  - apply (proj2 (proj2 (proj2 (create_validation (RT:=demo) dia_ruim two_users)
                           1 eq_refl ltac:(done))
                    "ontem" eq_refl ltac:(done))
             (Qmake 40 1) eq_refl eq_refl eq_refl).
Defined.

Lemma create_succeeds_witness :
  create jantar one_spending
  = (set_spendings (insert 2 {| sp_name := "jantar"; sp_day := 1725366896000;
                                sp_value := Qmake 40 1; sp_userId := 1 |})
       (next_spending_id one_spending),
     inr (send 201 (Obj [("message", text "Gasto cadastrado com sucesso!");
                         ("data", Obj [("id", int 2)])]))).
Proof.
  apply (create_succeeds (RT:=demo) jantar one_spending 1 1725366896000 (Qmake 40 1)
           "2024-09-03T12:34:56Z" "jantar" one_spending_ids_issued
           eq_refl ltac:(done) eq_refl ltac:(vm_compute; eauto)
           eq_refl ltac:(done) eq_refl eq_refl eq_refl eq_refl eq_refl).
Defined.

Lemma listByUser_exact_witness :
  exists found,
    listByUser "2" one_spending
    = (one_spending,
       inr (send 200 (Obj [("message", text "Lista de gastos obtidas com sucesso!");
                           ("data", Arr found)])))
    /\ forall v,
         v ∈ found
         <-> exists k sp,
               spendings one_spending !! k = Some sp /\ sp_userId sp = 2
               /\ v = Obj [("id", int k); ("name", text (sp_name sp));
                           ("day", Date (sp_day sp)); ("value", Lit (Num (sp_value sp)));
                           ("userId", int (sp_userId sp))].
Proof.
  apply (listByUser_exact (RT:=demo) "2" one_spending 2 eq_refl eq_refl eq_refl).
Defined.

(** Bia's spending is handed over to Ana. *)
Lemma update_then_listByUser_witness :
  (forall param,
     isNaN param = false -> parseInt param = Some 1 ->
     exists found,
       listByUser param (run (update "1" jantar) one_spending)
       = (run (update "1" jantar) one_spending,
          inr (send 200 (Obj [("message",
                               text "Lista de gastos obtidas com sucesso!");
                              ("data", Arr found)])))
       /\ Obj [("id", int 1); ("name", text "jantar"); ("day", Date 1725366896000);
               ("value", Lit (Num (Qmake 40 1))); ("userId", int 1)] ∈ found)
  /\
  (forall param other found,
     parseInt param = Some other -> other <> 1 ->
     listByUser param (run (update "1" jantar) one_spending)
     = (run (update "1" jantar) one_spending,
        inr (send 200 (Obj [("message",
                             text "Lista de gastos obtidas com sucesso!");
                            ("data", Arr found)]))) ->
     forall sp, select_spending (1, sp) ∉ found).
Proof.
  apply (update_then_listByUser (RT:=demo) "1" jantar one_spending 1 1 1725366896000
           (Qmake 40 1) "2024-09-03T12:34:56Z" "jantar"
           eq_refl eq_refl ltac:(done) eq_refl eq_refl ltac:(done) eq_refl
           eq_refl ltac:(done) eq_refl eq_refl eq_refl eq_refl eq_refl
           ltac:(vm_compute; eauto) ltac:(vm_compute; eauto)).
Defined.

End Examples.
